(** * Music recognition and renaming script: a shallow embedding of [main.py]

  The script scans a directory tree for audio files, asks a recognition
  client for the title and artist of each file and renames the files.
  This development embeds [main.py] function by function:

  - Python strings are lists of Unicode code points ([N]);
  - [pathlib.Path] values are absolute paths, lists of name components;
  - the file system is a finite map from paths to nodes, with the POSIX
    behaviour of [os.rename] that the Python documentation describes;
  - console output, recognition calls and rename calls are recorded in a
    trace of events, threaded by a small state-and-exception monad;
  - [asyncio] tasks are objects with an identity, as [list.index] compares
    them by identity.

  Outside the model: symbolic links and permissions, the parsing of the
  command line, exceptions that are no subclass of [Exception], and a file
  system that changes while the recognition calls are in flight (the world
  at each turn of the renaming loop is arbitrary in the statements about
  one turn). *)

From Stdlib Require Import NArith Ascii String.
From stdpp Require Import base option list gmap.

Set Warnings "-register-all".
Local Open Scope N_scope.

(** ** Python strings *)

(** A [str] is a sequence of code points. *)
Abbreviation str := (list N).

(** The code points of an ASCII literal. *)
Definition py (s : string) : str := map N_of_ascii (list_ascii_of_string s).

Module PyStr.

(** [s.startswith(pre)]. *)
Fixpoint startswith (pre s : str) : bool :=
  match pre, s with
  | [], _ => true
  | _ :: _, [] => false
  | a :: pre', b :: s' => (a =? b) && startswith pre' s'
  end.

(** The scan of [str.replace] for a non-empty [old]: occurrences are taken
    left to right and do not overlap; [skip] counts the characters of the
    occurrence just replaced that are still to be dropped. *)
Fixpoint replace_from (old new : str) (skip : nat) (s : str) : str :=
  match s with
  | [] => []
  | c :: s' =>
      match skip with
      | S k => replace_from old new k s'
      | O =>
          if startswith old s
          then new ++ replace_from old new (Nat.pred (length old)) s'
          else c :: replace_from old new 0 s'
      end
  end.

(** [s.replace(old, new)]; an empty [old] matches before every character
    and at the end. *)
Definition replace (old new s : str) : str :=
  match old with
  | [] => new ++ flat_map (fun c => c :: new) s
  | _ :: _ => replace_from old new 0 s
  end.

(** [c in s] for a one-character string [c]. *)
Definition contains (s : str) (c : N) : bool := existsb (N.eqb c) s.

(** [len(s) == 0]. *)
Definition is_empty {A} (l : list A) : bool :=
  match l with [] => true | _ :: _ => false end.

End PyStr.

(** ** Sanitising the file name (lines 85-89) *)

Section Sanitize.

(** [str.isalnum] on a code point outside ASCII is decided by the Unicode
    character database of the interpreter, which is not part of the
    repository: it is a parameter of the development. *)
Variable unicode_isalnum : N -> bool.

(** [c.isalnum()] for a one-character string: ASCII digits and letters,
    and whatever the Unicode database says above ASCII. *)
Definition isalnum (c : N) : bool :=
  if c <? 128
  then ((48 <=? c) && (c <=? 57))
       || ((65 <=? c) && (c <=? 90))
       || ((97 <=? c) && (c <=? 122))
  else unicode_isalnum c.

(** The condition of the comprehension: [c.isalnum() or c in " -_."]. *)
Definition kept (c : N) : bool :=
  isalnum c || PyStr.contains (py " -_.") c.

(** ["".join([c for c in s if ...]).replace(" ", "_")]. *)
Definition sanitize (s : str) : str :=
  PyStr.replace (py " ") (py "_") (List.filter kept s).

(** [f"{artist} - {title}.{extension}"], then sanitised. *)
Definition new_filename (artist title extension : str) : str :=
  sanitize (artist ++ py " - " ++ title ++ py "." ++ extension).

End Sanitize.

(** What [replace(" ", "_")] does to one character. *)
Definition space_to_underscore (c : N) : N := if c =? 32 then 95 else c.

(** ** Paths *)

(** A [pathlib.Path] after [resolve()]: an absolute path, as the list of its
    components from the root down.  The POSIX string of a path
    ([as_posix()]) and the path parsed back from it ([Path(s)]) are
    identified, so [music_files] is a list of paths. *)
Abbreviation Path := (list str).

Module PathLib.

(** [s.split(sep)] for a one-character separator. *)
Fixpoint split_on (sep : N) (s : str) : list str :=
  match s with
  | [] => [[]]
  | c :: s' =>
      if c =? sep then [] :: split_on sep s'
      else match split_on sep s' with
           | [] => [[c]]
           | h :: t => (c :: h) :: t
           end
  end.

(** The components of a path segment: empty components and ["."] are
    dropped when a path is parsed. *)
Definition parts_of (s : str) : list str :=
  List.filter (fun c => negb (PyStr.is_empty c || bool_decide (c = py ".")))
              (split_on 47 s).

(** [d / s]: a segment that starts with a slash is absolute and replaces
    [d], any other one is appended.  (The root [//] of POSIX is read as
    [/].) *)
Definition truediv (d : Path) (s : str) : Path :=
  if PyStr.startswith (py "/") s then parts_of s else d ++ parts_of s.

(** [p.parent]; the root is its own parent. *)
Definition parent (p : Path) : Path := removelast p.

(** [p.name]; empty for the root. *)
Definition name (p : Path) : str := List.last p [].

(** [p.as_posix()]. *)
Definition as_posix (p : Path) : str :=
  match p with
  | [] => py "/"
  | _ :: _ => flat_map (fun c => 47 :: c) p
  end.

(** One step of [resolve()] on a path without symbolic links: [".."]
    goes up, and stays at the root. *)
Definition resolve_step (acc : Path) (c : str) : Path :=
  if bool_decide (c = py "..") then removelast acc else acc ++ [c].

(** [Path(s).resolve()] from the working directory [cwd]. *)
Definition resolve (cwd : Path) (s : str) : Path :=
  if PyStr.startswith (py "/") s
  then fold_left resolve_step (parts_of s) []
  else fold_left resolve_step (parts_of s) cwd.

(** [d] is [p] or an ancestor of [p]. *)
Fixpoint is_prefix (d p : Path) : bool :=
  match d, p with
  | [], _ => true
  | _ :: _, [] => false
  | a :: d', b :: p' => bool_decide (a = b) && is_prefix d' p'
  end.

(** The components of [p] below [d], when [d] is [p] or an ancestor. *)
Fixpoint relative_to (d p : Path) : option (list str) :=
  match d, p with
  | [], _ => Some p
  | _ :: _, [] => None
  | a :: d', b :: p' => if bool_decide (a = b) then relative_to d' p' else None
  end.

End PathLib.

(** ** The file system *)

(** A node is a regular file with its content, or a directory.  Symbolic
    links and permissions are not modelled. *)
Inductive node :=
  | File (data : N)
  | Dir.

(** The file system maps the paths that exist to their nodes; the root
    always exists and is a directory. *)
Abbreviation FS := (gmap Path node).

(** The exceptions the script can meet. *)
Inductive exn :=
  | FileNotFoundError
  | IsADirectoryError
  | NotADirectoryError
  | OSError
  | ValueError
  | IndexError
  | SystemExit (code : N)
  | ClientError (tag : N)
  | ExceptionGroup (errors : list exn).

Module Posix.

Definition stat (fs : FS) (p : Path) : option node :=
  match p with
  | [] => Some Dir
  | _ :: _ => fs !! p
  end.

(** [p.exists()]. *)
Definition path_exists (fs : FS) (p : Path) : bool :=
  match stat fs p with Some _ => true | None => false end.

(** [p.is_dir()]. *)
Definition is_dir (fs : FS) (p : Path) : bool :=
  match stat fs p with Some Dir => true | _ => false end.

(** No path of the file system lies below [d]. *)
Definition dir_is_empty (fs : FS) (d : Path) : bool :=
  forallb (fun k => negb (PathLib.is_prefix d k) || bool_decide (k = d))
          (map fst (map_to_list fs)).

(** Where the node at [k] goes when the tree at [src] is moved to [dst]. *)
Definition rebase (src dst k : Path) : Path :=
  match PathLib.relative_to src k with
  | Some rel => dst ++ rel
  | None => k
  end.

Definition move_tree (src dst : Path) (fs : FS) : FS :=
  list_to_map (map (fun kv => (rebase src dst kv.1, kv.2))
                   (map_to_list (delete dst fs))).

(** [os.rename(src, dst)] on POSIX: an existing regular file at [dst] is
    replaced silently, a directory only replaces an empty directory. *)
Definition rename (fs : FS) (src dst : Path) : exn + FS :=
  match stat fs src with
  | None => inl FileNotFoundError
  | Some n =>
      if negb (path_exists fs (PathLib.parent dst)) then inl FileNotFoundError
      else if negb (is_dir fs (PathLib.parent dst)) then inl NotADirectoryError
      else if bool_decide (src = dst) then inr fs
      else match n, stat fs dst with
           | File _, Some Dir => inl IsADirectoryError
           | File d, _ => inr (<[dst := File d]> (delete src fs))
           | Dir, Some (File _) => inl NotADirectoryError
           | Dir, _ =>
               if PathLib.is_prefix src dst then inl OSError
               else if negb (dir_is_empty fs dst) then inl OSError
               else inr (move_tree src dst fs)
           end
  end.

(** The walk of [rglob] reaches the path [d/rel] when [rel] is not empty
    and every path from [d] down to its parent is a directory. *)
Fixpoint reaches (fs : FS) (d : Path) (rel : list str) : bool :=
  match rel with
  | [] => false
  | c :: rel' =>
      is_dir fs d && (PyStr.is_empty rel' || reaches fs (d ++ [c]) rel')
  end.

(** [s.endswith(suffix)]. *)
Definition endswith (suffix s : str) : bool :=
  PyStr.startswith (rev suffix) (rev s).

(** [directory.rglob("*" + suffix)] for a [suffix] without wildcard
    characters: the paths below [directory] whose name ends with [suffix],
    directories included, in the order the file system lists them. *)
Definition rglob (fs : FS) (directory : Path) (suffix : str) : list Path :=
  List.filter
    (fun p => match PathLib.relative_to directory p with
              | Some rel => reaches fs directory rel
              | None => false
              end && endswith suffix (PathLib.name p))
    (map fst (map_to_list fs)).

End Posix.

(** ** The recognition client *)

(** The part of a recognition result the script reads: an optional
    ["track"] record with optional ["title"] and ["subtitle"]. *)
Record Track := { track_title : option str; track_subtitle : option str }.
Record Response := { res_track : option Track }.

(** The client is external: [recognize] stands for a whole call, with the
    retries of its transport, on the file system as it is.  It gives a
    result, or the tag of the exception (a subclass of [Exception]) the
    call ends with. *)
Record Shazam := { recognize : FS -> Path -> N + Response }.

(** ** Effects *)

Inductive ColorCode := RED | GREEN | YELLOW | BLUE | MAGENTA | CYAN | RESET.

Definition color_value (c : ColorCode) : str :=
  27 :: py match c with
           | RED => "[91m" | GREEN => "[92m" | YELLOW => "[93m"
           | BLUE => "[94m" | MAGENTA => "[95m" | CYAN => "[96m"
           | RESET => "[0m"
           end.

Inductive Extension := MP3 | FLAC | OGG | WAV.

Definition extension_value (e : Extension) : str :=
  py match e with MP3 => "mp3" | FLAC => "flac" | OGG => "ogg" | WAV => "wav" end.

(** What a run does to the outside, in order. *)
Inductive event :=
  | Stdout (line : str)
  | Recognize (file : Path)
  | Rename (src dst : Path).

(** The state a run threads: the file system, the next fresh object
    identity, and the events so far. *)
Record World := { w_fs : FS; w_next_id : nat; w_trace : list event }.

(** A computation changes the world and returns a value or raises. *)
Definition Py (A : Type) : Type := World -> World * (exn + A).

Definition ret {A} (a : A) : Py A := fun w => (w, inr a).

Definition raise {A} (e : exn) : Py A := fun w => (w, inl e).

Definition bind {A B} (m : Py A) (k : A -> Py B) : Py B :=
  fun w => match m w with
           | (w', inr a) => k a w'
           | (w', inl e) => (w', inl e)
           end.

Declare Scope py_scope.
Delimit Scope py_scope with py.
Bind Scope py_scope with Py.
Notation "x <- m ;; k" := (bind m (fun x => k))
  (at level 100, m at next level, right associativity) : py_scope.
Notation "m ;; k" := (bind m (fun _ => k))
  (at level 100, right associativity) : py_scope.
Local Open Scope py_scope.

(** The world after one more event. *)
Definition log (e : event) (w : World) : World :=
  {| w_fs := w_fs w; w_next_id := w_next_id w; w_trace := w_trace w ++ [e] |}.

Definition emit (e : event) : Py unit := fun w => (log e w, inr tt).

Definition read_fs {A} (f : FS -> A) : Py A := fun w => (w, inr (f (w_fs w))).

(** [for x in l: body(x)]. *)
Fixpoint for_each {A} (l : list A) (body : A -> Py unit) : Py unit :=
  match l with
  | [] => ret tt
  | x :: l' => body x ;; for_each l' body
  end.

(** [[f(x) for x in l]]. *)
Fixpoint comprehension {A B} (f : A -> Py B) (l : list A) : Py (list B) :=
  match l with
  | [] => ret []
  | x :: l' => y <- f x ;; ys <- comprehension f l' ;; ret (y :: ys)
  end.

(** [l[i]]. *)
Definition getitem {A} (l : list A) (i : nat) : Py A :=
  match l !! i with
  | Some x => ret x
  | None => raise IndexError
  end.

(** [print_colored] (lines 29-34). *)
Definition print_colored (text : str) (color : ColorCode) : Py unit :=
  emit (Stdout (color_value color ++ text ++ color_value RESET)).

(** [Path(src).rename(dst)]. *)
Definition path_rename (src dst : Path) : Py unit :=
  emit (Rename src dst) ;;
  fun w => match Posix.rename (w_fs w) src dst with
           | inl e => (w, inl e)
           | inr fs' => ({| w_fs := fs'; w_next_id := w_next_id w;
                            w_trace := w_trace w |}, inr tt)
           end.

(** ** Tasks *)

(** An [asyncio.Task] is an object: [task_id] is its identity, and
    [task_outcome] what its coroutine ended with. *)
Record Task := { task_id : nat; task_outcome : exn + Response }.

(** [tg.create_task(client.recognize(file))]: the call is started and a
    new task object stands for it. *)
Definition create_task (client : Shazam) (file : Path) : Py Task :=
  emit (Recognize file) ;;
  fun w => ({| w_fs := w_fs w; w_next_id := S (w_next_id w);
               w_trace := w_trace w |},
            inr {| task_id := w_next_id w;
                   task_outcome :=
                     match recognize client (w_fs w) file with
                     | inl tag => inl (ClientError tag)
                     | inr res => inr res
                     end |}).

(** The exceptions of the tasks that failed. *)
Definition task_errors (tasks : list Task) : list exn :=
  omap (fun t => match task_outcome t with inl e => Some e | inr _ => None end)
       tasks.

(** Leaving [async with asyncio.TaskGroup()]: every task has finished, and
    the failures of the tasks, if any, are raised as one group. *)
Definition task_group_exit (tasks : list Task) : Py unit :=
  match task_errors tasks with
  | [] => ret tt
  | _ :: _ as errors => raise (ExceptionGroup errors)
  end.

(** [task.result()]. *)
Definition task_result (t : Task) : Py Response :=
  match task_outcome t with
  | inl e => raise e
  | inr res => ret res
  end.

(** [a == b] on tasks: [Task] defines no [__eq__], so this is [a is b]. *)
Definition task_eqb (a b : Task) : bool := Nat.eqb (task_id a) (task_id b).

Fixpoint index_from (i : nat) (l : list Task) (t : Task) : option nat :=
  match l with
  | [] => None
  | x :: l' => if task_eqb x t then Some i else index_from (S i) l' t
  end.

(** [l.index(t)]. *)
Definition index (l : list Task) (t : Task) : Py nat :=
  match index_from 0 l t with
  | Some i => ret i
  | None => raise ValueError
  end.

(** ** The script *)

Section Script.

Variable unicode_isalnum : N -> bool.

(** [get_music_files_sync] (lines 37-44). *)
Definition get_music_files_sync (directory : Path) (extension : str)
  : Py (list Path) :=
  read_fs (fun fs => Posix.rglob fs directory (py "." ++ extension)).

(** The body of the loop over [results] once [working_file] and [res]
    are known (lines 74-96). *)
Definition rename_if_possible (directory : Path) (extension : str)
    (working_file : Path) (res : Response) : Py unit :=
  match res_track res with
  | None =>
      print_colored
        (py "[X] No song information found for: "
         ++ PathLib.as_posix working_file
         ++ py ". Keeping the original name.") YELLOW
  | Some track =>
      let title := default (py "Unknown Title") (track_title track) in
      let artist := default (py "Unknown Artist") (track_subtitle track) in
      let new_filename := new_filename unicode_isalnum artist title extension in
      print_colored
        (py "[X] Renaming " ++ PathLib.as_posix working_file
         ++ py " to: " ++ new_filename) MAGENTA ;;
      present <- read_fs (fun fs => Posix.path_exists fs working_file) ;;
      if present
      then path_rename working_file (PathLib.truediv directory new_filename)
      else ret tt
  end.

(** The body of the loop over [results] (lines 72-96). *)
Definition rename_one (directory : Path) (extension : str)
    (music_files : list Path) (results : list Task) (result : Task)
  : Py unit :=
  i <- index results result ;;
  working_file <- getitem music_files i ;;
  res <- task_result result ;;
  rename_if_possible directory extension working_file res.

(** [process_music_files] (lines 47-96). *)
Definition process_music_files (client : Shazam) (directory : Path)
    (extension : str) : Py unit :=
  music_files <- get_music_files_sync directory extension ;;
  if PyStr.is_empty music_files
  then print_colored
         (py "[X] No music files with the extention " ++ extension
          ++ py " found in " ++ PathLib.as_posix directory ++ py ".") RED
  else
    results <- comprehension (create_task client) music_files ;;
    task_group_exit results ;;
    for_each results (rename_one directory extension music_files results).

(** The arguments as [argparse] returns them. *)
Record Namespace := { args_directory : str; args_extension : Extension }.

(** [main] (lines 99-134), from the parsed arguments on; [cwd] is the
    working directory and [client] the client built on lines 127-133. *)
Definition main (client : Shazam) (cwd : Path) (args : Namespace) : Py unit :=
  let target_dir := PathLib.resolve cwd (args_directory args) in
  present <- read_fs (fun fs => Posix.path_exists fs target_dir
                                || Posix.is_dir fs target_dir) ;;
  (if negb present
   then print_colored
          (py "[X] The directory '" ++ args_directory args
           ++ py "' does not exist.") RED ;;
        raise (SystemExit 1)
   else ret tt) ;;
  process_music_files client target_dir (extension_value (args_extension args)).

End Script.

(** The world a run starts in. *)
Definition boot (fs : FS) : World :=
  {| w_fs := fs; w_next_id := 0; w_trace := [] |}.

(** The sources of the rename calls of a trace, in order. *)
Definition rename_sources (trace : list event) : list Path :=
  omap (fun e => match e with Rename src _ => Some src | _ => None end) trace.

(** The exit status of the process: [0] when [main] returns, the code of a
    [SystemExit], and [1] for any other exception that escapes. *)
Definition exit_code (r : exn + unit) : N :=
  match r with
  | inr _ => 0
  | inl (SystemExit code) => code
  | inl _ => 1
  end.

(** ** What the task group holds *)

(** What the task of [file] ends with, on the file system [fs]. *)
Definition outcome_of (client : Shazam) (fs : FS) (file : Path)
  : exn + Response :=
  match recognize client fs file with
  | inl tag => inl (ClientError tag)
  | inr res => inr res
  end.

(** The tasks created for [files], the first with the identity [n]. *)
Fixpoint tasks_of (client : Shazam) (fs : FS) (n : nat) (files : list Path)
  : list Task :=
  match files with
  | [] => []
  | f :: files' =>
      {| task_id := n; task_outcome := outcome_of client fs f |}
      :: tasks_of client fs (S n) files'
  end.

(** The world once the tasks for [files] are created. *)
Definition spawned (files : list Path) (w : World) : World :=
  {| w_fs := w_fs w; w_next_id := (w_next_id w + length files)%nat;
     w_trace := w_trace w ++ map Recognize files |}.

(** An event of the renaming loop about [directory]: a line of output, or
    a rename whose target is an entry of [directory]. *)
Definition loop_event (directory : Path) (e : event) : Prop :=
  match e with
  | Stdout _ => True
  | Recognize _ => False
  | Rename _ dst => PathLib.parent dst = directory
  end.

(** [e] is the exception of an [exit()]. *)
Definition is_exit (e : exn) : Prop :=
  match e with SystemExit _ => True | _ => False end.

(** ** Sample runs *)

Module Demo.

Definition music : Path := [py "music"].
Definition a_mp3 : Path := [py "music"; py "a.mp3"].
Definition b_mp3 : Path := [py "music"; py "sub"; py "b.mp3"].
Definition x_y_mp3 : Path := [py "music"; py "X_-_Y.mp3"].

(** The track of artist ["X"] and title ["Y"]. *)
Definition track_xy : Track :=
  {| track_title := Some (py "Y"); track_subtitle := Some (py "X") |}.

(** A client that knows [a.mp3] and [b.mp3] as the same track, and
    nothing else. *)
Definition client : Shazam :=
  {| recognize := fun _ file =>
       if bool_decide (file = a_mp3) || bool_decide (file = b_mp3)
       then inr {| res_track := Some track_xy |}
       else inr {| res_track := None |} |}.

(** A directory where the new name of [a.mp3] is already taken. *)
Definition collision_fs : FS :=
  list_to_map [(music, Dir); (a_mp3, File 1); (x_y_mp3, File 3)].

(** A directory with one file, in a subdirectory. *)
Definition nested_fs : FS :=
  list_to_map [(music, Dir); ([py "music"; py "sub"], Dir); (b_mp3, File 2)].

(** A directory with no [mp3] file. *)
Definition flac_fs : FS :=
  list_to_map [(music, Dir); ([py "music"; py "c.flac"], File 4)].

(** The Unicode database is of no matter on ASCII names. *)
Definition ascii_only : N -> bool := fun _ => false.

(** [python main.py /music]. *)
Definition args : Namespace :=
  {| args_directory := py "/music"; args_extension := MP3 |}.

(** A client whose calls all fail. *)
Definition failing_client : Shazam := {| recognize := fun _ _ => inl 429 |}.

(** A client that knows no song. *)
Definition deaf_client : Shazam :=
  {| recognize := fun _ _ => inr {| res_track := None |} |}.

(** [python main.py /music/a.mp3]. *)
Definition args_file : Namespace :=
  {| args_directory := py "/music/a.mp3"; args_extension := MP3 |}.

(** A directory where the new name of [a.mp3] is the name of a
    subdirectory. *)
Definition blocked_fs : FS :=
  list_to_map [(music, Dir); (a_mp3, File 1); (x_y_mp3, Dir)].


(** A directory whose only file has the name its track gives. *)
Definition named_fs : FS := list_to_map [(music, Dir); (x_y_mp3, File 1)].

(** [python main.py /nowhere]. *)
Definition args_nowhere : Namespace :=
  {| args_directory := py "/nowhere"; args_extension := MP3 |}.

End Demo.

(** ** Notions for the properties of a run *)

(** The exceptions [os.rename] raises. *)
Definition os_error (e : exn) : Prop :=
  match e with
  | FileNotFoundError | IsADirectoryError | NotADirectoryError | OSError => True
  | _ => False
  end.

(** A line as [print_colored] writes it: a colour code, the text, and the
    code that resets the colour. *)
Definition colored (line : str) : Prop :=
  exists color text, line = color_value color ++ text ++ color_value RESET.

(** The turn of the loop for [file], with the result of its own call. *)
Definition turn_for (u : N -> bool) (client : Shazam) (fs : FS)
    (directory : Path) (extension : str) (file : Path) : Py unit :=
  bind (fun w => (w, outcome_of client fs file))
       (rename_if_possible u directory extension file).

(** The line printed for a file without song information (line 78). *)
Definition no_song_line (file : Path) : str :=
  color_value YELLOW
  ++ (py "[X] No song information found for: " ++ PathLib.as_posix file
      ++ py ". Keeping the original name.")
  ++ color_value RESET.

(** An event of a turn of the loop, for the files of the scan: a coloured
    line, or a rename of one of the files to an entry of [directory] whose
    name ends with [suffix]. *)
Definition turn_event (directory : Path) (suffix : str) (files : list Path)
    (e : event) : Prop :=
  match e with
  | Stdout line => colored line
  | Recognize _ => False
  | Rename src dst =>
      src ∈ files /\ PathLib.parent dst = directory
      /\ Posix.endswith suffix (PathLib.name dst) = true
  end.

(** The line printed before a rename (line 92). *)
Definition renaming_line (file : Path) (name : str) : str :=
  color_value MAGENTA
  ++ (py "[X] Renaming " ++ PathLib.as_posix file ++ py " to: " ++ name)
  ++ color_value RESET.

(** The name a track gives, with the defaults of lines 82-83. *)
Definition name_of (u : N -> bool) (track : Track) (extension : str) : str :=
  new_filename u
    (default (py "Unknown Artist") (track_subtitle track))
    (default (py "Unknown Title") (track_title track))
    extension.

(** The line printed when the scan finds nothing (line 63). *)
Definition no_files_line (extension : str) (directory : Path) : str :=
  color_value RED
  ++ (py "[X] No music files with the extention " ++ extension
      ++ py " found in " ++ PathLib.as_posix directory ++ py ".")
  ++ color_value RESET.

(** The events a computation adds to the trace all satisfy [Q]. *)
Definition adds (Q : event -> Prop) (w w' : World) : Prop :=
  exists evs, w_trace w' = w_trace w ++ evs /\ Forall Q evs.

(** * Properties *)

(** ** Sanitising *)

Lemma replace_from_space s :
  PyStr.replace_from [32] [95] 0 s = map space_to_underscore s.
Proof.
  induction s as [|c s IH]; [reflexivity|].
  cbn [PyStr.replace_from PyStr.startswith map length Nat.pred].
  unfold space_to_underscore at 1.
  rewrite N.eqb_sym, andb_true_r.
  destruct (c =? 32); cbn; by rewrite IH.
Qed.

(** [replace(" ", "_")] rewrites the string character by character. *)
Lemma replace_space s :
  PyStr.replace (py " ") (py "_") s = map space_to_underscore s.
Proof. apply replace_from_space. Qed.

Lemma sanitize_unfold u s :
  sanitize u s = map space_to_underscore (List.filter (kept u) s).
Proof. apply replace_space. Qed.

Lemma sanitize_app u a b : sanitize u (a ++ b) = sanitize u a ++ sanitize u b.
Proof. by rewrite !sanitize_unfold, List.filter_app, List.map_app. Qed.

Lemma sanitize_spaces u n : sanitize u (repeat 32 n) = repeat 95 n.
Proof.
  rewrite sanitize_unfold.
  induction n as [|n IH]; [done|]. cbn [repeat]. by rewrite <- IH.
Qed.

Lemma kept_space_to_underscore u c :
  kept u c = true -> kept u (space_to_underscore c) = true.
Proof.
  unfold space_to_underscore. destruct (c =? 32) eqn:E; [|done].
  intros _. unfold kept. by rewrite orb_true_iff; right.
Qed.

Lemma space_to_underscore_not_space c : space_to_underscore c <> 32.
Proof.
  unfold space_to_underscore. destruct (c =? 32) eqn:E; [done|].
  by apply N.eqb_neq.
Qed.

Lemma space_to_underscore_id c : c <> 32 -> space_to_underscore c = c.
Proof.
  intros H. unfold space_to_underscore. by apply N.eqb_neq in H as ->.
Qed.

(** What is left after sanitising: kept characters other than the space. *)
Lemma sanitize_chars u s :
  Forall (fun c => kept u c = true /\ c <> 32) (sanitize u s).
Proof.
  rewrite sanitize_unfold.
  induction s as [|c s IH]; [constructor|]. cbn [List.filter].
  destruct (kept u c) eqn:K; [|done]. cbn [map]. constructor; [|done].
  split; [by apply kept_space_to_underscore|apply space_to_underscore_not_space].
Qed.

Lemma sanitize_fixed u s :
  Forall (fun c => kept u c = true /\ c <> 32) s -> sanitize u s = s.
Proof.
  rewrite sanitize_unfold.
  induction 1 as [|c s [K Hc] _ IH]; [done|]. cbn [List.filter].
  rewrite K. cbn [map]. by rewrite IH, space_to_underscore_id.
Qed.

(** C5: sanitising a file name twice gives the same string as sanitising it
    once, for every string and whatever the Unicode database says about
    characters outside ASCII. *)
Theorem sanitize_idempotent u s : sanitize u (sanitize u s) = sanitize u s.
Proof. apply sanitize_fixed, sanitize_chars. Qed.

(** C1, as the specification states it: the file name for the title
    ["Song: Title!"], the artist ["Artist/Name"] and the extension ["mp3"]
    would be ["ArtistName_-_SongTitle.mp3"].  It is not, whatever the
    Unicode database: the space inside the title is kept by the filter and
    becomes an underscore. *)
Lemma song_title_filename_differs :
  ~ (exists u, new_filename u (py "Artist/Name") (py "Song: Title!") (py "mp3")
               = py "ArtistName_-_SongTitle.mp3").
Proof. intros [u H]. vm_compute in H. discriminate H. Qed.

(** C1, amended: the file name for the title ["Song: Title!"], the artist
    ["Artist/Name"] and the extension ["mp3"] is
    ["ArtistName_-_Song_Title.mp3"]; and every space becomes an underscore
    of its own, so that a run of [n] spaces between two strings becomes a
    run of [n] underscores between their sanitised forms. *)
Theorem song_title_filename u :
  new_filename u (py "Artist/Name") (py "Song: Title!") (py "mp3")
  = py "ArtistName_-_Song_Title.mp3"
  /\ forall a b n,
       sanitize u (a ++ repeat 32 n ++ b)
       = sanitize u a ++ repeat 95 n ++ sanitize u b.
Proof.
  split; [reflexivity|].
  intros a b n. by rewrite !sanitize_app, sanitize_spaces.
Qed.

(** ** The new name is one path component *)

Lemma split_on_absent sep s :
  Forall (fun c => c <> sep) s -> PathLib.split_on sep s = [s].
Proof.
  induction 1 as [|c s Hc _ IH]; [done|]. cbn [PathLib.split_on].
  apply N.eqb_neq in Hc as ->. by rewrite IH.
Qed.

Lemma startswith_slash_absent s :
  Forall (fun c => c <> 47) s -> PyStr.startswith (py "/") s = false.
Proof.
  destruct 1 as [|c s Hc _]; [done|].
  cbn [py list_ascii_of_string map PyStr.startswith].
  change (N_of_ascii "/") with 47.
  rewrite N.eqb_sym. by apply N.eqb_neq in Hc as ->.
Qed.

(** Joining a directory and a name without a slash, other than the empty
    name and ["."], appends one component. *)
Lemma truediv_name d s :
  Forall (fun c => c <> 47) s -> s <> [] -> s <> py "." ->
  PathLib.truediv d s = d ++ [s].
Proof.
  intros Hs Hnil Hdot. unfold PathLib.truediv, PathLib.parts_of.
  rewrite startswith_slash_absent, split_on_absent by done.
  cbn [List.filter]. rewrite bool_decide_eq_false_2 by done.
  by destruct s.
Qed.

Lemma kept_slash u : kept u 47 = false.
Proof. reflexivity. Qed.

Lemma sanitize_no_slash u s : Forall (fun c => c <> 47) (sanitize u s).
Proof.
  eapply Forall_impl; [apply sanitize_chars|].
  intros c [K _] ->. by rewrite kept_slash in K.
Qed.

Lemma new_filename_hyphen u artist title extension :
  In 45 (new_filename u artist title extension).
Proof.
  unfold new_filename. rewrite sanitize_unfold.
  change 45 with (space_to_underscore 45). apply in_map, filter_In.
  split; [|reflexivity].
  apply in_or_app; right. right; by left.
Qed.

(** [directory / new_filename] is the entry of that name in [directory]. *)
Lemma truediv_new_filename u directory artist title extension :
  PathLib.truediv directory (new_filename u artist title extension)
  = directory ++ [new_filename u artist title extension].
Proof.
  pose proof (new_filename_hyphen u artist title extension) as H.
  apply truediv_name.
  - apply sanitize_no_slash.
  - intros E. by rewrite E in H.
  - intros E. rewrite E in H. cbn in H. by destruct H as [?|[]].
Qed.

Lemma parent_entry (d : Path) c : PathLib.parent (d ++ [c]) = d.
Proof. apply removelast_last. Qed.

(** ** Tasks and their results *)

Lemma bind_ok {A B} (m : Py A) (k : A -> Py B) w w' a :
  m w = (w', inr a) -> bind m k w = k a w'.
Proof. unfold bind. by intros ->. Qed.

Lemma create_task_run client f w :
  create_task client f w
  = (spawned [f] w,
     inr {| task_id := w_next_id w; task_outcome := outcome_of client (w_fs w) f |}).
Proof.
  unfold create_task, bind, emit, log, spawned, outcome_of. cbn.
  by rewrite Nat.add_1_r.
Qed.

Lemma spawned_cons f files w :
  spawned files (spawned [f] w) = spawned (f :: files) w.
Proof.
  unfold spawned. cbn. f_equal; [lia|]. by rewrite <- app_assoc.
Qed.

(** The comprehension of line 69 creates one task per file, in order, with
    fresh identities. *)
Lemma comprehension_create_task client files w :
  comprehension (create_task client) files w
  = (spawned files w, inr (tasks_of client (w_fs w) (w_next_id w) files)).
Proof.
  revert w. induction files as [|f files IH]; intros w.
  - unfold spawned. cbn. rewrite Nat.add_0_r, app_nil_r. by destruct w.
  - cbn [comprehension tasks_of].
    erewrite bind_ok by apply create_task_run.
    erewrite bind_ok by apply IH.
    unfold ret. rewrite spawned_cons. cbn. by rewrite Nat.add_1_r.
Qed.

Lemma tasks_of_length client fs n files :
  length (tasks_of client fs n files) = length files.
Proof. revert n. induction files; intros; cbn; by f_equal. Qed.

Lemma tasks_of_lookup client fs n files i :
  tasks_of client fs n files !! i
  = (fun f => {| task_id := (n + i)%nat; task_outcome := outcome_of client fs f |})
    <$> files !! i.
Proof.
  revert n i. induction files as [|f files IH]; intros n [|i]; cbn; try done.
  - by rewrite Nat.add_0_r.
  - rewrite IH. by replace (S n + i)%nat with (n + S i)%nat by lia.
Qed.

Lemma tasks_of_id_ge client fs n files t :
  t ∈ tasks_of client fs n files -> (n <= task_id t)%nat.
Proof.
  intros [i Hi]%list_elem_of_lookup. rewrite tasks_of_lookup in Hi.
  destruct (files !! i); [|done]. injection Hi as <-. cbn. lia.
Qed.

Lemma index_from_tasks_of client fs n files k i t :
  tasks_of client fs n files !! i = Some t ->
  index_from k (tasks_of client fs n files) t = Some (k + i)%nat.
Proof.
  revert n k i. induction files as [|f files IH]; intros n k [|i] Hi;
    cbn in Hi; try done.
  - injection Hi as <-. cbn. unfold task_eqb. cbn.
    by rewrite Nat.eqb_refl, Nat.add_0_r.
  - cbn [tasks_of index_from]. unfold task_eqb at 1. cbn [task_id].
    assert (S n <= task_id t)%nat as Hge
      by (eapply tasks_of_id_ge, list_elem_of_lookup_2, Hi).
    destruct (Nat.eqb_spec n (task_id t)) as [E|_]; [lia|].
    rewrite (IH _ _ _ Hi). f_equal. lia.
Qed.

(** The lookup of lines 72-73 finds the file the task was created for. *)
Lemma rename_one_ith u directory extension client fs n files i t f wk :
  tasks_of client fs n files !! i = Some t ->
  files !! i = Some f ->
  rename_one u directory extension files (tasks_of client fs n files) t wk
  = bind (task_result t) (rename_if_possible u directory extension f) wk.
Proof.
  intros Ht Hf. unfold rename_one, index.
  rewrite (index_from_tasks_of _ _ _ _ 0 _ _ Ht). cbn [Nat.add].
  unfold bind at 1, ret. unfold getitem. rewrite Hf. reflexivity.
Qed.

(** ** The renaming loop *)

Lemma rename_sources_app a b :
  rename_sources (a ++ b) = rename_sources a ++ rename_sources b.
Proof. apply omap_app. Qed.

Lemma rename_not_exit fs src dst e :
  Posix.rename fs src dst = inl e -> ~ is_exit e.
Proof.
  unfold Posix.rename. intros H.
  repeat case_match; simplify_eq; by intros [].
Qed.

(** One turn of the loop prints one line and calls [rename] at most once,
    on the working file and towards an entry of [directory]. *)
Lemma rename_if_possible_run u directory extension f res w :
  exists evs,
    w_trace (rename_if_possible u directory extension f res w).1
    = w_trace w ++ evs
    /\ Forall (loop_event directory) evs
    /\ (rename_sources evs = [] \/ rename_sources evs = [f])
    /\ forall e, (rename_if_possible u directory extension f res w).2 = inl e ->
                 ~ is_exit e.
Proof.
  unfold rename_if_possible. destruct (res_track res) as [track|].
  - rewrite truediv_new_filename.
    unfold print_colored, bind, emit, read_fs. cbn.
    destruct (Posix.path_exists (w_fs w) f).
    + unfold path_rename, bind, emit. cbn.
      destruct (Posix.rename _ _ _) as [e|fs'] eqn:R; cbn.
      * eexists [_; _]. rewrite <- app_assoc. split; [done|].
        split; [repeat constructor; apply parent_entry|].
        split; [by right|]. intros ? [= <-]. by eapply rename_not_exit.
      * eexists [_; _]. rewrite <- app_assoc. split; [done|].
        split; [repeat constructor; apply parent_entry|].
        split; [by right|]. by intros ? [=].
    + eexists [_]. split; [done|]. split; [by repeat constructor|].
      split; [by left|]. by intros ? [=].
  - unfold print_colored, emit. cbn. eexists [_]. split; [done|].
    split; [by repeat constructor|]. split; [by left|]. by intros ? [=].
Qed.

(** The loop from the [k]-th result on: what it adds to the trace. *)
Lemma loop_run u directory extension client fs n files k wk :
  exists evs,
    w_trace (for_each (drop k (tasks_of client fs n files))
               (rename_one u directory extension files
                  (tasks_of client fs n files)) wk).1
    = w_trace wk ++ evs
    /\ Forall (loop_event directory) evs
    /\ rename_sources evs `sublist_of` drop k files
    /\ forall e,
         (for_each (drop k (tasks_of client fs n files))
            (rename_one u directory extension files
               (tasks_of client fs n files)) wk).2 = inl e ->
         ~ is_exit e.
Proof.
  remember (length files - k)%nat as m eqn:Hm.
  revert k wk Hm. induction m as [|m IH]; intros k wk Hm.
  - rewrite drop_ge by (rewrite tasks_of_length; lia). cbn.
    exists []. rewrite app_nil_r. split; [done|]. split; [constructor|].
    split; [apply sublist_nil_l|]. by intros ? [=].
  - destruct (lookup_lt_is_Some_2 files k) as [f Hf]; [lia|].
    assert (tasks_of client fs n files !! k
            = Some {| task_id := (n + k)%nat;
                      task_outcome := outcome_of client fs f |}) as Ht
      by (by rewrite tasks_of_lookup, Hf).
    rewrite (drop_S _ _ _ Ht), (drop_S _ _ _ Hf). cbn [for_each].
    unfold bind. rewrite (rename_one_ith _ _ _ _ _ _ _ _ _ _ _ Ht Hf).
    unfold bind, task_result. cbn [task_outcome].
    unfold outcome_of. destruct (recognize client fs f) as [tag|res]; cbn.
    { exists []. rewrite app_nil_r. split; [done|]. split; [constructor|].
      split; [apply sublist_nil_l|]. by intros ? [= <-] []. }
    destruct (rename_if_possible_run u directory extension f res wk)
      as (evs1 & Htr & Hev & Hsrc & Hex).
    destruct (rename_if_possible u directory extension f res wk)
      as [w1 [e|[]]]; cbn in *.
    { exists evs1. split; [done|]. split; [done|]. split; [|done].
      destruct Hsrc as [-> | ->]; [apply sublist_nil_l|].
      apply sublist_skip, sublist_nil_l. }
    destruct (IH (S k) w1) as (evs2 & Htr2 & Hev2 & Hsrc2 & Hex2); [lia|].
    exists (evs1 ++ evs2). rewrite Htr2, Htr, <- app_assoc.
    split; [done|]. split; [by apply Forall_app|]. split; [|done].
    rewrite rename_sources_app.
    destruct Hsrc as [-> | ->]; cbn; [by apply sublist_cons|by apply sublist_skip].
Qed.

(** ** A whole run *)

Lemma filter_sublist {A} (f : A -> bool) l : List.filter f l `sublist_of` l.
Proof.
  induction l as [|x l IH]; [done|]. cbn.
  destruct (f x); [by apply sublist_skip|by apply sublist_cons].
Qed.

(** The scan lists no path twice. *)
Lemma rglob_NoDup fs directory suffix : NoDup (Posix.rglob fs directory suffix).
Proof.
  eapply sublist_NoDup; [apply (NoDup_fst_map_to_list fs)|].
  apply filter_sublist.
Qed.

Lemma rename_sources_recognize files : rename_sources (map Recognize files) = [].
Proof. induction files; [done|]. by cbn. Qed.

Lemma is_empty_nil {A} (l : list A) : PyStr.is_empty l = true <-> l = [].
Proof. by destruct l. Qed.

(** [process_music_files] after the scan: either the report that nothing
    was found, or the task group followed by the loop. *)
Lemma process_music_files_unfold u client directory extension w :
  process_music_files u client directory extension w
  = let files := Posix.rglob (w_fs w) directory (py "." ++ extension) in
    let tasks := tasks_of client (w_fs w) (w_next_id w) files in
    if PyStr.is_empty files
    then print_colored
           (py "[X] No music files with the extention " ++ extension
            ++ py " found in " ++ PathLib.as_posix directory ++ py ".") RED w
    else bind (task_group_exit tasks)
           (fun _ => for_each tasks
                       (rename_one u directory extension files tasks))
           (spawned files w).
Proof.
  unfold process_music_files, get_music_files_sync, read_fs.
  unfold bind at 1. cbv zeta.
  destruct (PyStr.is_empty _); [done|].
  by erewrite bind_ok by apply comprehension_create_task.
Qed.

(** What a call of [process_music_files] adds to the trace: the calls of
    the client for the files found, then the events of the loop. *)
Lemma process_music_files_run u client directory extension w :
  exists evs,
    w_trace (process_music_files u client directory extension w).1
    = w_trace w
      ++ map Recognize (Posix.rglob (w_fs w) directory (py "." ++ extension))
      ++ evs
    /\ Forall (loop_event directory) evs
    /\ rename_sources evs
       `sublist_of` Posix.rglob (w_fs w) directory (py "." ++ extension)
    /\ forall e,
         (process_music_files u client directory extension w).2 = inl e ->
         ~ is_exit e.
Proof.
  rewrite process_music_files_unfold. cbv zeta.
  set (files := Posix.rglob (w_fs w) directory (py "." ++ extension)).
  destruct (PyStr.is_empty files) eqn:E.
  - apply is_empty_nil in E as ->. eexists [_]. cbn.
    split; [done|]. split; [by repeat constructor|]. split; [done|].
    by intros ? [=].
  - unfold bind, task_group_exit.
    destruct (task_errors _) as [|e0 errors].
    + destruct (loop_run u directory extension client (w_fs w) (w_next_id w)
                  files 0 (spawned files w))
        as (evs & Htr & Hev & Hsrc & Hex).
      rewrite !drop_0 in *. exists evs. unfold ret. rewrite Htr.
      cbn [spawned w_trace]. by rewrite <- app_assoc.
    + exists []. rewrite app_nil_r. split; [done|]. split; [constructor|].
      split; [apply sublist_nil_l|]. by intros ? [= <-] [].
Qed.

Lemma is_dir_exists fs p : Posix.is_dir fs p = true -> Posix.path_exists fs p = true.
Proof. unfold Posix.is_dir, Posix.path_exists. by destruct (Posix.stat fs p). Qed.

(** [main] on a target that exists is [process_music_files]; on one that
    does not, one line of output and [exit(1)]. *)
Lemma main_unfold u client cwd args fs :
  main u client cwd args (boot fs)
  = if Posix.path_exists fs (PathLib.resolve cwd (args_directory args))
    then process_music_files u client
           (PathLib.resolve cwd (args_directory args))
           (extension_value (args_extension args)) (boot fs)
    else (log (Stdout (color_value RED
                       ++ (py "[X] The directory '" ++ args_directory args
                           ++ py "' does not exist.")
                       ++ color_value RESET)) (boot fs),
          inl (SystemExit 1)).
Proof.
  unfold main, read_fs, bind at 1. cbn [w_fs boot].
  destruct (Posix.path_exists _ _) eqn:E; [done|].
  destruct (Posix.is_dir _ _) eqn:D; [|done].
  apply is_dir_exists in D. congruence.
Qed.

Lemma rename_in_trace src dst trace :
  Rename src dst ∈ trace -> src ∈ rename_sources trace.
Proof.
  intros H. unfold rename_sources. apply list_elem_of_omap.
  by exists (Rename src dst).
Qed.

(** ** The claims about a whole run *)

(** C2, as the specification states it: every rename would leave the file
    in the directory it was found in.  The file [/music/sub/b.mp3], found
    by the scan of [/music], is renamed to [/music/X_-_Y.mp3]. *)
Lemma subdirectory_file_leaves_its_directory :
  ~ (exists u,
       forall src dst,
         Rename src dst
           ∈ w_trace (main u Demo.client [] Demo.args (boot Demo.nested_fs)).1 ->
         PathLib.parent dst = PathLib.parent src).
Proof.
  intros [u H]. specialize (H Demo.b_mp3 Demo.x_y_mp3).
  assert (PathLib.parent Demo.x_y_mp3 = PathLib.parent Demo.b_mp3) as E.
  { apply H. apply list_elem_of_In. vm_compute. tauto. }
  vm_compute in E. discriminate E.
Qed.

(** C2, amended: the target of every rename of a run is an entry of the
    target directory itself, and its source is one of the files the scan
    found; so a file is renamed in place exactly when it lies in the target
    directory itself, and a file found in a subdirectory is moved up into
    the target directory. *)
Theorem rename_goes_to_target_directory u client cwd args fs src dst :
  let directory := PathLib.resolve cwd (args_directory args) in
  Rename src dst ∈ w_trace (main u client cwd args (boot fs)).1 ->
  PathLib.parent dst = directory
  /\ src ∈ Posix.rglob fs directory (py "." ++ extension_value (args_extension args))
  /\ (PathLib.parent dst = PathLib.parent src <-> PathLib.parent src = directory).
Proof.
  cbv zeta. rewrite main_unfold.
  destruct (Posix.path_exists _ _).
  - destruct (process_music_files_run u client
                (PathLib.resolve cwd (args_directory args))
                (extension_value (args_extension args)) (boot fs))
      as (evs & -> & Hev & Hsrc & _).
    cbn [boot w_trace w_fs app]. intros Hin.
    apply elem_of_app in Hin as [Hin|Hin].
    { apply list_elem_of_fmap in Hin as (f & [=] & _). }
    assert (PathLib.parent dst = PathLib.resolve cwd (args_directory args)) as E
      by (by rewrite Forall_forall in Hev; apply (Hev _ Hin)).
    split; [done|]. split; [|by rewrite E].
    eapply (sublist_subseteq _ _ Hsrc), rename_in_trace, Hin.
  - cbn. intros Hin. apply list_elem_of_In in Hin. by destruct Hin as [?|[]].
Qed.

(** The run on [Demo.nested_fs] renames [/music/sub/b.mp3]. *)
Lemma rename_goes_to_target_directory_witness :
  PathLib.parent Demo.x_y_mp3 = Demo.music
  /\ Demo.b_mp3 ∈ Posix.rglob Demo.nested_fs Demo.music (py ".mp3")
  /\ (PathLib.parent Demo.x_y_mp3 = PathLib.parent Demo.b_mp3
      <-> PathLib.parent Demo.b_mp3 = Demo.music).
Proof.
  apply (rename_goes_to_target_directory Demo.ascii_only Demo.client []
           Demo.args Demo.nested_fs Demo.b_mp3 Demo.x_y_mp3).
  apply list_elem_of_In. vm_compute. tauto.
Defined.

(** C9: in a run, the sources of the rename calls are pairwise different
    files of the scan: no path is the source of two renames. *)
Theorem each_path_renamed_at_most_once u client cwd args fs :
  let trace := w_trace (main u client cwd args (boot fs)).1 in
  NoDup (rename_sources trace)
  /\ forall src,
       src ∈ rename_sources trace ->
       src ∈ Posix.rglob fs (PathLib.resolve cwd (args_directory args))
               (py "." ++ extension_value (args_extension args)).
Proof.
  cbv zeta. rewrite main_unfold.
  destruct (Posix.path_exists _ _).
  - destruct (process_music_files_run u client
                (PathLib.resolve cwd (args_directory args))
                (extension_value (args_extension args)) (boot fs))
      as (evs & -> & _ & Hsrc & _).
    cbn [boot w_trace w_fs app] in *.
    rewrite rename_sources_app, rename_sources_recognize. cbn [app].
    split; [eapply sublist_NoDup; [apply rglob_NoDup|done]|].
    intros src. by apply sublist_subseteq.
  - cbn. split; [constructor|]. by intros src H%elem_of_nil.
Qed.

(** C4: when the target directory does not exist, [main] prints one line
    and exits with the code 1, before any call of the recognition client
    and without touching the file system.  When the target exists, as a
    directory or not, [main] does not exit there: it goes on as
    [process_music_files], no [exit()] follows, and the exit code is 0
    unless an exception escapes. *)
Theorem missing_directory_exits_with_1 u client cwd args fs :
  let directory := PathLib.resolve cwd (args_directory args) in
  let run := main u client cwd args (boot fs) in
  (Posix.path_exists fs directory = false ->
     run.2 = inl (SystemExit 1) /\ exit_code run.2 = 1
     /\ (forall file, Recognize file ∉ w_trace run.1)
     /\ rename_sources (w_trace run.1) = []
     /\ w_fs run.1 = fs)
  /\ (Posix.path_exists fs directory = true ->
     run = process_music_files u client directory
             (extension_value (args_extension args)) (boot fs)
     /\ (forall e, run.2 = inl e -> ~ is_exit e)
     /\ (run.2 = inr tt -> exit_code run.2 = 0)).
Proof.
  cbv zeta. rewrite main_unfold. split; intros ->.
  - cbn. repeat split; try done.
    intros file Hin. apply list_elem_of_In in Hin. by destruct Hin as [?|[]].
  - split; [done|]. split; [|by intros ->].
    by destruct (process_music_files_run u client
                   (PathLib.resolve cwd (args_directory args))
                   (extension_value (args_extension args)) (boot fs))
      as (_ & _ & _ & _ & Hex).
Qed.

(** [/nowhere] does not exist in [Demo.flac_fs], [/music] does. *)
Lemma missing_directory_exits_with_1_witness :
  exit_code (main Demo.ascii_only Demo.client [] Demo.args_nowhere
               (boot Demo.flac_fs)).2 = 1
  /\ exit_code (main Demo.ascii_only Demo.client [] Demo.args
                  (boot Demo.flac_fs)).2 = 0.
Proof.
  split.
  - apply (missing_directory_exits_with_1 Demo.ascii_only Demo.client []
             Demo.args_nowhere Demo.flac_fs).
    vm_compute. reflexivity.
  - apply (missing_directory_exits_with_1 Demo.ascii_only Demo.client []
             Demo.args Demo.flac_fs);
      vm_compute; reflexivity.
Defined.

(** C8: when the target directory exists and the scan finds no file of
    the chosen extension, the run consists of one line of output, the
    report that no music files were found: no call of the recognition
    client, no rename, the file system as it was, and a normal return. *)
Theorem no_files_found u client cwd args fs :
  let directory := PathLib.resolve cwd (args_directory args) in
  let extension := extension_value (args_extension args) in
  let run := main u client cwd args (boot fs) in
  Posix.path_exists fs directory = true ->
  Posix.rglob fs directory (py "." ++ extension) = [] ->
  w_trace run.1
  = [Stdout (color_value RED
             ++ (py "[X] No music files with the extention " ++ extension
                 ++ py " found in " ++ PathLib.as_posix directory ++ py ".")
             ++ color_value RESET)]
  /\ w_fs run.1 = fs
  /\ run.2 = inr tt.
Proof.
  cbv zeta. intros Hdir Hnone.
  rewrite main_unfold, Hdir, process_music_files_unfold. cbv zeta.
  cbn [boot w_fs]. by rewrite Hnone.
Qed.

(** [/music] of [Demo.flac_fs] holds no [mp3] file. *)
Lemma no_files_found_witness :
  w_fs (main Demo.ascii_only Demo.client [] Demo.args (boot Demo.flac_fs)).1
  = Demo.flac_fs.
Proof.
  apply (no_files_found Demo.ascii_only Demo.client [] Demo.args Demo.flac_fs);
    vm_compute; reflexivity.
Defined.

(** ** The claims about one turn of the loop *)

(** C10: the tasks of line 69 are one per file, in order, and the lookup
    [music_files[results.index(result)]] of line 72, at the [i]-th result,
    finds the [i]-th file, the one whose recognition the task ran: the turn
    of the loop handles that file with that result.  Tasks are compared by
    identity, so this holds also when two calls return equal results. *)
Theorem results_paired_with_files
    u client directory extension (files : list Path) w :
  exists results : list Task,
    (comprehension (create_task client) files w).2 = inr results
    /\ length results = length files
    /\ forall i result,
         results !! i = Some result ->
         exists working_file,
           files !! i = Some working_file
           /\ index results result = ret i
           /\ task_outcome result = outcome_of client (w_fs w) working_file
           /\ forall wk,
                rename_one u directory extension files results result wk
                = bind (task_result result)
                    (rename_if_possible u directory extension working_file) wk.
Proof.
  rewrite comprehension_create_task. cbn [snd].
  exists (tasks_of client (w_fs w) (w_next_id w) files).
  split; [done|]. split; [apply tasks_of_length|].
  intros i result Hi. pose proof Hi as Hi'.
  rewrite tasks_of_lookup in Hi'.
  destruct (files !! i) as [f|] eqn:Hf; [|done]. injection Hi' as <-.
  exists f. split; [done|]. split.
  { unfold index. by rewrite (index_from_tasks_of _ _ _ _ 0 _ _ Hi). }
  split; [done|].
  intros wk. by apply (rename_one_ith _ _ _ _ _ _ _ i).
Qed.

(** Two files with equal results have different tasks, found at their own
    positions. *)
Example equal_results_distinct_tasks :
  let results := tasks_of Demo.client ∅ 0 [Demo.a_mp3; Demo.b_mp3] in
  task_outcome <$> results !! 0%nat = task_outcome <$> results !! 1%nat
  /\ (forall result, results !! 1%nat = Some result ->
                     index_from 0 results result = Some 1%nat).
Proof. split; [reflexivity|]. by intros result [= <-]. Qed.

Lemma created_tasks client files w w1 results :
  comprehension (create_task client) files w = (w1, inr results) ->
  results = tasks_of client (w_fs w) (w_next_id w) files.
Proof. rewrite comprehension_create_task. by intros [= _ <-]. Qed.

(** C7: at a result without a ["track"] field, the turn of the loop prints
    the line that no song information was found for the file, changes
    nothing else (the file system stays as it is, nothing is renamed), and
    the loop goes on with the results that follow. *)
Theorem no_track_keeps_the_name
    u client directory extension (files : list Path) w w1 results
    i working_file res wk :
  comprehension (create_task client) files w = (w1, inr results) ->
  files !! i = Some working_file ->
  recognize client (w_fs w) working_file = inr res ->
  res_track res = None ->
  for_each (drop i results)
    (rename_one u directory extension files results) wk
  = for_each (drop (S i) results)
      (rename_one u directory extension files results)
      (log (Stdout (color_value YELLOW
                    ++ (py "[X] No song information found for: "
                        ++ PathLib.as_posix working_file
                        ++ py ". Keeping the original name.")
                    ++ color_value RESET)) wk).
Proof.
  intros ->%created_tasks Hf Hres Hnone.
  assert (tasks_of client (w_fs w) (w_next_id w) files !! i
          = Some {| task_id := (w_next_id w + i)%nat;
                    task_outcome := outcome_of client (w_fs w) working_file |})
    as Ht by (by rewrite tasks_of_lookup, Hf).
  rewrite (drop_S _ _ _ Ht). cbn [for_each]. unfold bind at 1.
  rewrite (rename_one_ith _ _ _ _ _ _ _ _ _ _ _ Ht Hf).
  unfold bind, task_result, outcome_of. cbn [task_outcome]. rewrite Hres.
  unfold ret, rename_if_possible. by rewrite Hnone.
Qed.

(** [Demo.client] does not know [/music/c.flac]. *)
Lemma no_track_keeps_the_name_witness :
  w_fs (for_each
          (drop 0 (tasks_of Demo.client Demo.flac_fs 0 [[py "music"; py "c.flac"]]))
          (rename_one Demo.ascii_only Demo.music (py "flac")
             [[py "music"; py "c.flac"]]
             (tasks_of Demo.client Demo.flac_fs 0 [[py "music"; py "c.flac"]]))
          (boot Demo.flac_fs)).1
  = Demo.flac_fs.
Proof.
  rewrite (no_track_keeps_the_name Demo.ascii_only Demo.client Demo.music
             (py "flac") [[py "music"; py "c.flac"]] (boot Demo.flac_fs)
             (spawned [[py "music"; py "c.flac"]] (boot Demo.flac_fs))
             (tasks_of Demo.client Demo.flac_fs 0 [[py "music"; py "c.flac"]])
             0 [py "music"; py "c.flac"] {| res_track := None |}
             (boot Demo.flac_fs));
    reflexivity.
Defined.

(** C6: at a recognised file that no longer exists when its turn comes,
    the turn of the loop prints the line that announces the rename and
    returns: no exception is raised, [rename] is not called and the file
    system stays as it is. *)
Theorem missing_source_is_skipped
    u client directory extension (files : list Path) w w1 results
    i result working_file res track wk :
  comprehension (create_task client) files w = (w1, inr results) ->
  results !! i = Some result ->
  files !! i = Some working_file ->
  recognize client (w_fs w) working_file = inr res ->
  res_track res = Some track ->
  Posix.path_exists (w_fs wk) working_file = false ->
  rename_one u directory extension files results result wk
  = (log (Stdout (color_value MAGENTA
                  ++ (py "[X] Renaming " ++ PathLib.as_posix working_file
                      ++ py " to: "
                      ++ new_filename u
                           (default (py "Unknown Artist") (track_subtitle track))
                           (default (py "Unknown Title") (track_title track))
                           extension)
                  ++ color_value RESET)) wk,
     inr tt).
Proof.
  intros ->%created_tasks Ht Hf Hres Htrack Hgone.
  rewrite (rename_one_ith _ _ _ _ _ _ _ _ _ _ _ Ht Hf).
  rewrite tasks_of_lookup, Hf in Ht. injection Ht as <-.
  unfold bind at 1, task_result, outcome_of. cbn [task_outcome]. rewrite Hres.
  unfold ret, rename_if_possible. rewrite Htrack.
  unfold print_colored, bind, emit, read_fs. cbn [log w_fs]. by rewrite Hgone.
Qed.

(** [a.mp3] is recognised, and gone from the empty file system when its
    turn comes. *)
Lemma missing_source_is_skipped_witness :
  (rename_one Demo.ascii_only Demo.music (py "mp3") [Demo.a_mp3]
     (tasks_of Demo.client Demo.collision_fs 0 [Demo.a_mp3])
     {| task_id := 0;
        task_outcome := outcome_of Demo.client Demo.collision_fs Demo.a_mp3 |}
     (boot ∅)).2
  = inr tt.
Proof.
  rewrite (missing_source_is_skipped Demo.ascii_only Demo.client Demo.music
             (py "mp3") [Demo.a_mp3] (boot Demo.collision_fs)
             (spawned [Demo.a_mp3] (boot Demo.collision_fs))
             (tasks_of Demo.client Demo.collision_fs 0 [Demo.a_mp3])
             0 _ Demo.a_mp3 {| res_track := Some Demo.track_xy |}
             Demo.track_xy (boot ∅));
    reflexivity.
Defined.

(** C3, as the specification states it: a rename whose target exists
    would be skipped, the source keeping its name and the target its
    content.  In [/music], where [a.mp3] is recognised as the track whose
    name [X_-_Y.mp3] is taken, the run leaves neither as it was. *)
Lemma collision_is_not_skipped :
  ~ (exists u,
       let fs' := w_fs (main u Demo.client [] Demo.args
                          (boot Demo.collision_fs)).1 in
       fs' !! Demo.a_mp3 = Some (File 1)
       /\ fs' !! Demo.x_y_mp3 = Some (File 3)).
Proof. intros [u [H _]]. vm_compute in H. discriminate H. Qed.

(** C3, amended: when the target of the rename already exists as a regular
    file other than the source, the rename is not skipped: the source, a
    regular file, replaces the target.  After the turn of the loop the
    target path holds the content of the source, the source path is gone,
    every other path is as it was, and no error is raised. *)
Theorem collision_replaces_the_target
    u client directory extension (files : list Path) w w1 results
    i result working_file res track wk data old :
  let name := new_filename u
                (default (py "Unknown Artist") (track_subtitle track))
                (default (py "Unknown Title") (track_title track))
                extension in
  let run := rename_one u directory extension files results result wk in
  comprehension (create_task client) files w = (w1, inr results) ->
  results !! i = Some result ->
  files !! i = Some working_file ->
  recognize client (w_fs w) working_file = inr res ->
  res_track res = Some track ->
  Posix.stat (w_fs wk) working_file = Some (File data) ->
  Posix.is_dir (w_fs wk) directory = true ->
  Posix.stat (w_fs wk) (directory ++ [name]) = Some (File old) ->
  working_file <> directory ++ [name] ->
  run.2 = inr tt
  /\ Rename working_file (directory ++ [name]) ∈ w_trace run.1
  /\ Posix.stat (w_fs run.1) (directory ++ [name]) = Some (File data)
  /\ Posix.stat (w_fs run.1) working_file = None
  /\ forall p, p <> working_file -> p <> directory ++ [name] ->
               w_fs run.1 !! p = w_fs wk !! p.
Proof.
  cbv zeta. intros ->%created_tasks Ht Hf Hres Htrack Hsrc Hdir Hdst Hne.
  set (name := new_filename u _ _ extension) in *.
  assert (exists line,
            rename_one u directory extension files
              (tasks_of client (w_fs w) (w_next_id w) files) result wk
            = ({| w_fs := <[directory ++ [name] := File data]>
                            (delete working_file (w_fs wk));
                  w_next_id := w_next_id wk;
                  w_trace := (w_trace wk ++ [Stdout line])
                             ++ [Rename working_file (directory ++ [name])] |},
               inr tt)) as [line ->].
  { eexists.
    rewrite (rename_one_ith _ _ _ _ _ _ _ _ _ _ _ Ht Hf).
    rewrite tasks_of_lookup, Hf in Ht. injection Ht as <-.
    unfold bind at 1, task_result, outcome_of. cbn [task_outcome]. rewrite Hres.
    unfold ret, rename_if_possible. rewrite Htrack, truediv_new_filename.
    fold name. unfold print_colored, bind at 1, emit.
    unfold bind at 1, read_fs. cbn [log w_fs].
    unfold Posix.path_exists at 1. rewrite Hsrc.
    unfold path_rename, bind, emit. cbn [log w_fs w_trace w_next_id].
    unfold Posix.rename. rewrite Hsrc, parent_entry.
    rewrite (is_dir_exists _ _ Hdir), Hdir, Hdst. cbn [negb].
    rewrite bool_decide_eq_false_2 by done. reflexivity. }
  cbn [fst snd w_fs w_trace].
  split; [done|].
  split; [apply elem_of_app; right; apply list_elem_of_here|].
  split; [|split].
  - destruct directory; cbn; apply lookup_insert_eq.
  - destruct working_file as [|c p]; [done|]. cbn.
    rewrite lookup_insert_ne by done. apply lookup_delete_eq.
  - intros p Hp1 Hp2.
    rewrite lookup_insert_ne by done. by rewrite lookup_delete_ne.
Qed.

(** In [Demo.collision_fs] the new name of [a.mp3] is taken by a file. *)
Lemma collision_replaces_the_target_witness :
  Posix.stat
    (w_fs (rename_one Demo.ascii_only Demo.music (py "mp3") [Demo.a_mp3]
             (tasks_of Demo.client Demo.collision_fs 0 [Demo.a_mp3])
             {| task_id := 0;
                task_outcome :=
                  outcome_of Demo.client Demo.collision_fs Demo.a_mp3 |}
             (boot Demo.collision_fs)).1)
    Demo.x_y_mp3
  = Some (File 1).
Proof.
  apply (collision_replaces_the_target Demo.ascii_only Demo.client Demo.music
           (py "mp3") [Demo.a_mp3] (boot Demo.collision_fs)
           (spawned [Demo.a_mp3] (boot Demo.collision_fs))
           (tasks_of Demo.client Demo.collision_fs 0 [Demo.a_mp3])
           0 _ Demo.a_mp3 {| res_track := Some Demo.track_xy |}
           Demo.track_xy (boot Demo.collision_fs) 1 3);
    first [reflexivity | intros E; vm_compute in E; discriminate E].
Defined.

(** * Further properties of the script *)

(** ** The new file name *)

(** The strings sanitising leaves as they are: those made of kept
    characters without a space. *)
Theorem sanitize_fixed_points u s :
  sanitize u s = s <-> Forall (fun c => kept u c = true /\ c <> 32) s.
Proof.
  split; [|apply sanitize_fixed].
  intros E. rewrite <- E. apply sanitize_chars.
Qed.

(** A sanitised string holds alphanumeric characters, hyphens, underscores
    and dots only, and is no longer than the string it comes from. *)
Theorem sanitize_alphabet u s :
  Forall (fun c => isalnum u c = true \/ In c (py "-_.")) (sanitize u s)
  /\ (length (sanitize u s) <= length s)%nat.
Proof.
  split.
  - eapply Forall_impl; [apply sanitize_chars|].
    intros c [K Hc]. unfold kept in K.
    apply orb_true_iff in K as [K|K]; [by left|right].
    cbn in K. rewrite !orb_true_iff, !N.eqb_eq in K. cbn.
    destruct K as [K|[K|[K|[K|K]]]]; try done; auto.
  - rewrite sanitize_unfold, length_map. apply List.filter_length_le.
Qed.

(** The new name is the sanitised artist, ["_-_"], the sanitised title, a
    dot and the sanitised extension. *)
Theorem new_filename_parts u artist title extension :
  new_filename u artist title extension
  = sanitize u artist ++ py "_-_" ++ sanitize u title ++ py "."
    ++ sanitize u extension.
Proof. unfold new_filename. by rewrite !sanitize_app. Qed.

Lemma startswith_app p q : PyStr.startswith p (p ++ q) = true.
Proof. induction p as [|c p IH]; [done|]. cbn. by rewrite N.eqb_refl. Qed.

Lemma endswith_app suffix s : Posix.endswith suffix (s ++ suffix) = true.
Proof. unfold Posix.endswith. rewrite rev_app_distr. apply startswith_app. Qed.

(** The new name keeps the extension of the run: it ends with the dot and
    the extension, so the renamed file is one the same scan would find. *)
Theorem new_filename_keeps_extension u artist title e :
  Posix.endswith (py "." ++ extension_value e)
    (new_filename u artist title (extension_value e)) = true.
Proof.
  unfold new_filename.
  rewrite (app_assoc artist), (app_assoc (artist ++ _)), sanitize_app.
  replace (sanitize u (py "." ++ extension_value e))
    with (py "." ++ extension_value e) by (by destruct e).
  apply endswith_app.
Qed.

(** The new name is one path component, whatever the recognition result
    holds: joined to the directory it names an entry of the directory, of
    that name, and it is neither ["."] nor [".."]. *)
Theorem new_filename_is_an_entry u directory artist title extension :
  let name := new_filename u artist title extension in
  PathLib.truediv directory name = directory ++ [name]
  /\ PathLib.parent (PathLib.truediv directory name) = directory
  /\ PathLib.name (PathLib.truediv directory name) = name
  /\ ~ In 47 name /\ name <> py "." /\ name <> py "..".
Proof.
  cbv zeta. rewrite truediv_new_filename, parent_entry.
  pose proof (new_filename_hyphen u artist title extension) as H.
  split; [done|]. split; [done|].
  split; [unfold PathLib.name; apply last_last|].
  split; [|split].
  - intros Hin. pose proof (sanitize_no_slash u
      (artist ++ py " - " ++ title ++ py "." ++ extension)) as Hs.
    rewrite List.Forall_forall in Hs. by apply (Hs 47).
  - intros E. rewrite E in H. cbn in H. by destruct H as [?|[]].
  - intros E. rewrite E in H. cbn in H. by destruct H as [?|[?|[]]].
Qed.

(** ** The scan *)

Lemma relative_to_Some d p rel :
  PathLib.relative_to d p = Some rel <-> p = d ++ rel.
Proof.
  revert p. induction d as [|a d IH]; intros p; cbn.
  - split; [by intros [= ->]|by intros ->].
  - destruct p as [|b p]; [split; [done|by intros [=]]|].
    case_bool_decide as E.
    + subst b. rewrite IH. split; [by intros ->|by intros [= ->]].
    + split; [done|]. intros [= ? _]. by destruct E.
Qed.

Lemma reaches_spec fs d rel :
  Posix.reaches fs d rel = true
  <-> rel <> []
      /\ forall k, (k < length rel)%nat ->
                   Posix.is_dir fs (d ++ take k rel) = true.
Proof.
  revert d. induction rel as [|c rel IH]; intros d; cbn [Posix.reaches].
  { split; [done|]. by intros [? _]. }
  rewrite andb_true_iff, orb_true_iff, IH. split.
  - intros [Hd Hrest]. split; [done|]. intros [|k] Hk; cbn.
    { by rewrite app_nil_r. }
    destruct Hrest as [Hnil|[_ Hrest]].
    { destruct rel; [cbn in Hk; lia|done]. }
    rewrite (cons_middle c), app_assoc. apply Hrest. cbn in Hk. lia.
  - intros [_ H]. split.
    { specialize (H 0%nat). cbn in H. rewrite app_nil_r in H. apply H. lia. }
    destruct rel as [|c' rel]; [by left|right]. split; [done|].
    intros k Hk. specialize (H (S k)). cbn [take] in H.
    rewrite (cons_middle c), app_assoc in H. apply H. cbn in *. lia.
Qed.

(** What the scan finds: the paths that exist strictly below the
    directory, down a chain of directories that starts with the directory
    itself, and whose name ends with the suffix. *)
Lemma rglob_spec fs directory suffix p :
  p ∈ Posix.rglob fs directory suffix
  <-> is_Some (fs !! p)
      /\ Posix.endswith suffix (PathLib.name p) = true
      /\ exists rel,
           p = directory ++ rel /\ rel <> []
           /\ forall k, (k < length rel)%nat ->
                        Posix.is_dir fs (directory ++ take k rel) = true.
Proof.
  unfold Posix.rglob.
  rewrite list_elem_of_In, filter_In, <- list_elem_of_In, andb_true_iff.
  change (map fst (map_to_list fs)) with ((map_to_list fs).*1).
  rewrite list_elem_of_fmap. split.
  - intros [[[k v] [-> Hin]] [Hrel Hend]].
    apply elem_of_map_to_list in Hin. cbn in *.
    split; [by eexists|]. split; [done|].
    destruct (PathLib.relative_to directory k) as [rel|] eqn:E; [|done].
    apply relative_to_Some in E. apply reaches_spec in Hrel as [? ?].
    by exists rel.
  - intros [[v Hv] [Hend (rel & -> & Hnil & Hdirs)]].
    split; [exists (directory ++ rel, v); split; [done|];
            by apply elem_of_map_to_list|].
    split; [|done].
    rewrite (proj2 (relative_to_Some directory (directory ++ rel) rel) eq_refl).
    by apply reaches_spec.
Qed.


Lemma rglob_not_dir fs directory suffix :
  Posix.is_dir fs directory = false -> Posix.rglob fs directory suffix = [].
Proof.
  intros Hd. apply elem_of_nil_inv. intros p Hp.
  apply rglob_spec in Hp as (_ & _ & rel & _ & Hnil & Hdirs).
  specialize (Hdirs 0%nat). cbn in Hdirs. rewrite app_nil_r in Hdirs.
  rewrite Hdirs in Hd; [done|]. destruct rel; [done|cbn; lia].
Qed.

(** An entry of a directory whose name ends with the dot and the extension
    is found, be it a file or a directory. *)
Theorem get_music_files_sync_finds_entries directory extension w name :
  Posix.is_dir (w_fs w) directory = true ->
  is_Some (w_fs w !! (directory ++ [name])) ->
  Posix.endswith (py "." ++ extension) name = true ->
  exists files,
    get_music_files_sync directory extension w = (w, inr files)
    /\ directory ++ [name] ∈ files.
Proof.
  intros Hd Hp Hend. eexists. split; [reflexivity|].
  apply rglob_spec. split; [done|].
  split; [unfold PathLib.name; by rewrite last_last|].
  exists [name]. split; [done|]. split; [done|].
  intros [|k] Hk; [|cbn in Hk; lia]. cbn. by rewrite app_nil_r.
Qed.

Lemma get_music_files_sync_finds_entries_witness :
  exists files,
    get_music_files_sync Demo.music (py "mp3") (boot Demo.collision_fs)
    = (boot Demo.collision_fs, inr files)
    /\ Demo.a_mp3 ∈ files.
Proof.
  apply (get_music_files_sync_finds_entries Demo.music (py "mp3")
           (boot Demo.collision_fs) (py "a.mp3"));
    [reflexivity|by eexists|reflexivity].
Defined.

(** ** The loop as a loop over the files *)

(** The loop over the results, with its lookups, is the loop over the
    files in the order of the scan, each file with its own result. *)
Lemma loop_over_files u directory extension client fs n files k wk :
  for_each (drop k (tasks_of client fs n files))
    (rename_one u directory extension files (tasks_of client fs n files)) wk
  = for_each (drop k files) (turn_for u client fs directory extension) wk.
Proof.
  remember (length files - k)%nat as m eqn:Hm.
  revert k wk Hm. induction m as [|m IH]; intros k wk Hm.
  - by rewrite !drop_ge by (rewrite ?tasks_of_length; lia).
  - destruct (lookup_lt_is_Some_2 files k) as [f Hf]; [lia|].
    assert (tasks_of client fs n files !! k
            = Some {| task_id := (n + k)%nat;
                      task_outcome := outcome_of client fs f |}) as Ht
      by (by rewrite tasks_of_lookup, Hf).
    rewrite (drop_S _ _ _ Ht), (drop_S _ _ _ Hf). cbn [for_each].
    unfold bind. rewrite (rename_one_ith _ _ _ _ _ _ _ _ _ _ _ Ht Hf).
    unfold turn_for, bind, task_result. cbn [task_outcome].
    destruct (outcome_of client fs f) as [e|res]; [done|]. unfold ret.
    destruct (rename_if_possible u directory extension f res wk)
      as [w1 [e|[]]]; [done|].
    apply IH. lia.
Qed.

(** A property of the worlds and of the exceptions that every turn keeps
    is kept by the loop. *)
Lemma for_each_keeps {A} (R : World -> World -> Prop) (E : exn -> Prop)
    (l : list A) (body : A -> Py unit) :
  (forall w, R w w) ->
  (forall w1 w2 w3, R w1 w2 -> R w2 w3 -> R w1 w3) ->
  (forall x w, x ∈ l ->
     R w (body x w).1 /\ forall e, (body x w).2 = inl e -> E e) ->
  forall w,
    R w (for_each l body w).1
    /\ forall e, (for_each l body w).2 = inl e -> E e.
Proof.
  intros Hrefl Htrans. induction l as [|x l IH]; intros Hbody w.
  - cbn. split; [done|]. by intros ? [=].
  - cbn [for_each]. unfold bind.
    destruct (Hbody x w) as [HR HE]; [by left|].
    destruct (body x w) as [w1 [e|[]]]; cbn in *.
    + split; [done|]. intros ? [= <-]. by apply HE.
    + destruct (IH (fun y w' Hy => Hbody y w' (list_elem_of_further _ _ _ Hy)) w1)
        as [HR' HE'].
      split; [by eapply Htrans|done].
Qed.

Lemma adds_refl Q w : adds Q w w.
Proof. exists []. by rewrite app_nil_r. Qed.

Lemma adds_trans Q w1 w2 w3 : adds Q w1 w2 -> adds Q w2 w3 -> adds Q w1 w3.
Proof.
  intros (a & Ha & Qa) (b & Hb & Qb). exists (a ++ b).
  rewrite Hb, Ha, <- app_assoc. split; [done|by apply Forall_app].
Qed.

(** ** The order of a run *)

Lemma task_errors_tasks_of client fs n files :
  task_errors (tasks_of client fs n files)
  = omap (fun f => match recognize client fs f with
                   | inl tag => Some (ClientError tag)
                   | inr _ => None
                   end) files.
Proof.
  revert n. induction files as [|f files IH]; intros n; [done|].
  unfold task_errors in *. cbn. unfold outcome_of at 1.
  rewrite IH. by destruct (recognize client fs f).
Qed.

(** [process_music_files] with the loop over the files. *)
Lemma process_music_files_files u client directory extension w :
  process_music_files u client directory extension w
  = let files := Posix.rglob (w_fs w) directory (py "." ++ extension) in
    if PyStr.is_empty files
    then (log (Stdout (no_files_line extension directory)) w, inr tt)
    else match task_errors (tasks_of client (w_fs w) (w_next_id w) files) with
         | [] => for_each files
                   (turn_for u client (w_fs w) directory extension)
                   (spawned files w)
         | _ :: _ =>
             (spawned files w,
              (task_group_exit (tasks_of client (w_fs w) (w_next_id w) files)
                 (spawned files w)).2)
         end.
Proof.
  rewrite process_music_files_unfold. cbv zeta.
  destruct (PyStr.is_empty _); [done|].
  unfold bind, task_group_exit.
  destruct (task_errors _); [|done]. unfold ret.
  pose proof (loop_over_files u directory extension client (w_fs w)
                (w_next_id w)
                (Posix.rglob (w_fs w) directory (py "." ++ extension)) 0) as H.
  rewrite !drop_0 in H. apply H.
Qed.

Lemma not_exists_no_files fs directory suffix :
  Posix.path_exists fs directory = false -> Posix.rglob fs directory suffix = [].
Proof.
  intros H. apply rglob_not_dir.
  destruct (Posix.is_dir fs directory) eqn:D; [|done].
  apply is_dir_exists in D. congruence.
Qed.

(** The barrier: a run calls the client once for each file of the scan,
    in the order of the scan, before it prints or renames anything, and
    never again. *)
Theorem recognition_precedes_renaming u client cwd args fs :
  let directory := PathLib.resolve cwd (args_directory args) in
  let files := Posix.rglob fs directory
                 (py "." ++ extension_value (args_extension args)) in
  exists evs,
    w_trace (main u client cwd args (boot fs)).1 = map Recognize files ++ evs
    /\ forall file, Recognize file ∉ evs.
Proof.
  cbv zeta. rewrite main_unfold.
  destruct (Posix.path_exists _ _) eqn:Hd.
  - destruct (process_music_files_run u client
                (PathLib.resolve cwd (args_directory args))
                (extension_value (args_extension args)) (boot fs))
      as (evs & -> & Hev & _).
    exists evs. split; [done|]. intros file Hin.
    rewrite Forall_forall in Hev. apply (Hev _ Hin).
  - rewrite not_exists_no_files by done. eexists [_]. split; [done|].
    intros file Hin. apply list_elem_of_In in Hin. by destruct Hin as [?|[]].
Qed.

(** When the call of the client fails for one of the files of the scan,
    the task group raises: the run ends with an exception group, with the
    exit code 1, after the calls of the client only.
    Nothing is printed, no file is renamed, the file system is as it was,
    also for the files whose calls succeeded. *)
Theorem failed_recognition_stops_the_run u client cwd args fs file tag :
  let directory := PathLib.resolve cwd (args_directory args) in
  let files := Posix.rglob fs directory
                 (py "." ++ extension_value (args_extension args)) in
  let run := main u client cwd args (boot fs) in
  file ∈ files ->
  recognize client fs file = inl tag ->
  (exists errors, run.2 = inl (ExceptionGroup errors))
  /\ exit_code run.2 = 1
  /\ w_trace run.1 = map Recognize files
  /\ w_fs run.1 = fs.
Proof.
  cbv zeta. intros Hin Hfail. rewrite main_unfold.
  destruct (Posix.path_exists _ _) eqn:Hd;
    [|by rewrite not_exists_no_files in Hin by done; apply elem_of_nil in Hin].
  rewrite process_music_files_files. cbv zeta. cbn [boot w_fs w_next_id].
  destruct (PyStr.is_empty _) eqn:E;
    [by apply is_empty_nil in E; rewrite E in Hin; apply elem_of_nil in Hin|].
  assert (ClientError tag
          ∈ task_errors (tasks_of client fs 0
              (Posix.rglob fs (PathLib.resolve cwd (args_directory args))
                 (py "." ++ extension_value (args_extension args))))) as Herr.
  { rewrite task_errors_tasks_of. apply list_elem_of_omap.
    exists file. by rewrite Hfail. }
  unfold task_group_exit.
  destruct (task_errors _) as [|e0 errors]; [by apply elem_of_nil in Herr|].
  cbn [fst snd spawned boot w_trace w_fs exit_code app raise].
  split; [by eexists|]. done.
Qed.

Lemma failed_recognition_stops_the_run_witness :
  w_fs (main Demo.ascii_only Demo.failing_client [] Demo.args
          (boot Demo.collision_fs)).1
  = Demo.collision_fs.
Proof.
  apply (failed_recognition_stops_the_run Demo.ascii_only Demo.failing_client
           [] Demo.args Demo.collision_fs Demo.a_mp3 429);
    [apply list_elem_of_In; vm_compute; tauto|reflexivity].
Defined.

(** A target that exists and is not a directory is not refused: the scan
    of it finds nothing, and the run reports that no music files were
    found and returns, with the exit code 0. *)
Theorem file_as_target_is_accepted u client cwd args fs :
  let directory := PathLib.resolve cwd (args_directory args) in
  let run := main u client cwd args (boot fs) in
  Posix.path_exists fs directory = true ->
  Posix.is_dir fs directory = false ->
  w_trace run.1
  = [Stdout (no_files_line (extension_value (args_extension args)) directory)]
  /\ w_fs run.1 = fs
  /\ exit_code run.2 = 0.
Proof.
  cbv zeta. intros Hex Hdir.
  rewrite main_unfold, Hex, process_music_files_files. cbv zeta.
  cbn [boot w_fs]. by rewrite rglob_not_dir.
Qed.

Lemma file_as_target_is_accepted_witness :
  exit_code (main Demo.ascii_only Demo.client [] Demo.args_file
               (boot Demo.collision_fs)).2 = 0.
Proof.
  apply (file_as_target_is_accepted Demo.ascii_only Demo.client []
           Demo.args_file Demo.collision_fs); reflexivity.
Defined.

(** ** What a run prints, renames and raises *)

Lemma rename_os_error fs src dst e :
  Posix.rename fs src dst = inl e -> os_error e.
Proof.
  unfold Posix.rename. intros H.
  repeat case_match; simplify_eq; exact I.
Qed.

Lemma new_filename_suffix u artist title extension :
  Posix.endswith (py "." ++ sanitize u extension)
    (new_filename u artist title extension) = true.
Proof.
  unfold new_filename.
  rewrite (app_assoc artist), (app_assoc (artist ++ _)), sanitize_app.
  rewrite (sanitize_app u (py ".")). apply endswith_app.
Qed.

Lemma print_colored_colored text color : colored (color_value color ++ text ++ color_value RESET).
Proof. by exists color, text. Qed.

(** One turn for a file of the scan: its events, and what it raises. *)
Lemma turn_for_keeps u client fs directory extension files f w :
  f ∈ files ->
  adds (turn_event directory (py "." ++ sanitize u extension) files) w
    (turn_for u client fs directory extension f w).1
  /\ forall e,
       (turn_for u client fs directory extension f w).2 = inl e ->
       os_error e \/ exists tag, recognize client fs f = inl tag.
Proof.
  intros Hf. unfold turn_for, bind, outcome_of.
  destruct (recognize client fs f) as [tag|res] eqn:Hrec.
  { split; [apply adds_refl|]. intros e _. right. by exists tag. }
  unfold rename_if_possible. destruct (res_track res) as [track|].
  - rewrite truediv_new_filename.
    unfold print_colored, bind, emit, read_fs. cbn [log w_fs fst snd].
    destruct (Posix.path_exists (w_fs w) f).
    + unfold path_rename, bind, emit. cbn [log w_fs w_trace w_next_id].
      assert (Forall (turn_event directory (py "." ++ sanitize u extension) files)
                [Stdout (color_value MAGENTA
                         ++ (py "[X] Renaming " ++ PathLib.as_posix f
                             ++ py " to: "
                             ++ new_filename u
                                  (default (py "Unknown Artist") (track_subtitle track))
                                  (default (py "Unknown Title") (track_title track))
                                  extension)
                         ++ color_value RESET);
                 Rename f (directory
                           ++ [new_filename u
                                 (default (py "Unknown Artist") (track_subtitle track))
                                 (default (py "Unknown Title") (track_title track))
                                 extension])]) as Hev.
      { constructor; [apply print_colored_colored|].
        constructor; [|constructor].
        split; [done|]. split; [apply parent_entry|].
        unfold PathLib.name. rewrite last_last. apply new_filename_suffix. }
      destruct (Posix.rename _ _ _) as [e|fs'] eqn:R;
        unfold adds, log; cbn [fst snd w_trace].
      * split; [eexists; split; [by rewrite <- app_assoc|exact Hev]|].
        intros ? [= <-]. left. by eapply rename_os_error.
      * split; [eexists; split; [by rewrite <- app_assoc|exact Hev]|].
        by intros ? [=].
    + split; [|by intros ? [=]].
      eexists [_]. split; [done|].
      repeat constructor. apply print_colored_colored.
  - unfold print_colored, emit. cbn [log fst snd w_trace].
    split; [|by intros ? [=]].
    eexists [_]. split; [done|]. repeat constructor. apply print_colored_colored.
Qed.

Lemma no_task_errors client fs n files f :
  task_errors (tasks_of client fs n files) = [] ->
  f ∈ files -> exists res, recognize client fs f = inr res.
Proof.
  rewrite task_errors_tasks_of. intros Hnil Hf.
  destruct (recognize client fs f) as [tag|res] eqn:Hrec; [|by exists res].
  assert (ClientError tag ∈ @nil exn) as H; [|by apply elem_of_nil in H].
  rewrite <- Hnil. apply list_elem_of_omap. exists f. by rewrite Hrec.
Qed.

(** A whole run: the calls of the client, then events of turns, and the
    exceptions that can end it. *)
Lemma main_keeps u client cwd args fs :
  exists evs,
    w_trace (main u client cwd args (boot fs)).1
    = map Recognize
        (Posix.rglob fs (PathLib.resolve cwd (args_directory args))
           (py "." ++ extension_value (args_extension args)))
      ++ evs
    /\ Forall (turn_event (PathLib.resolve cwd (args_directory args))
                 (py "." ++ extension_value (args_extension args))
                 (Posix.rglob fs (PathLib.resolve cwd (args_directory args))
                    (py "." ++ extension_value (args_extension args)))) evs
    /\ forall e,
         (main u client cwd args (boot fs)).2 = inl e ->
         (e = SystemExit 1
          /\ Posix.path_exists fs (PathLib.resolve cwd (args_directory args))
             = false)
         \/ (exists errors, e = ExceptionGroup errors)
         \/ os_error e.
Proof.
  rewrite main_unfold.
  destruct (Posix.path_exists _ _) eqn:Hd.
  - rewrite process_music_files_files. cbv zeta. cbn [boot w_fs w_next_id].
    set (directory := PathLib.resolve cwd (args_directory args)).
    set (files := Posix.rglob fs directory _).
    destruct (PyStr.is_empty files) eqn:E.
    { apply is_empty_nil in E. rewrite E. eexists [_]. split; [done|].
      split; [|by intros ? [=]]. repeat constructor.
      apply print_colored_colored. }
    destruct (task_errors _) as [|e0 errors] eqn:Herr.
    + destruct (for_each_keeps
                  (adds (turn_event directory
                           (py "." ++ extension_value (args_extension args)) files))
                  os_error files
                  (turn_for u client fs directory
                     (extension_value (args_extension args)))
                  (adds_refl _) (adds_trans _)) with
        (w := spawned files (boot fs))
        as [(evs & Htr & Hev) Hex].
      { intros f w Hf.
        destruct (turn_for_keeps u client fs directory
                    (extension_value (args_extension args)) files f w Hf)
          as [Hadd Hexn].
        replace (sanitize u (extension_value (args_extension args)))
          with (extension_value (args_extension args)) in Hadd
          by (by destruct (args_extension args)).
        split; [done|]. intros e He.
        destruct (Hexn e He) as [?|[tag Htag]]; [done|].
        destruct (no_task_errors _ _ _ _ f Herr Hf) as [res Hres]. congruence. }
      exists evs. rewrite Htr. split; [by cbn; rewrite ?app_nil_r|].
      split; [done|]. intros e He. right; right. by apply Hex.
    + exists []. rewrite app_nil_r. split; [done|]. split; [constructor|].
      unfold task_group_exit. rewrite Herr. cbn.
      intros ? [= <-]. right; left. by eexists.
  - rewrite not_exists_no_files by done. eexists [_]. split; [done|].
    split; [repeat constructor; apply print_colored_colored|].
    intros ? [= <-]. by left.
Qed.

(** Every line a run prints is a coloured line: it starts with a colour
    code and ends with the code that resets the colour. *)
Theorem every_line_is_colored u client cwd args fs line :
  Stdout line ∈ w_trace (main u client cwd args (boot fs)).1 ->
  colored line.
Proof.
  destruct (main_keeps u client cwd args fs) as (evs & -> & Hev & _).
  intros [Hin|Hin]%elem_of_app.
  - by apply list_elem_of_fmap in Hin as (f & [=] & _).
  - rewrite Forall_forall in Hev. apply (Hev _ Hin).
Qed.

Lemma every_line_is_colored_witness :
  colored (no_files_line (py "mp3") Demo.music).
Proof.
  apply (every_line_is_colored Demo.ascii_only Demo.client [] Demo.args
           Demo.flac_fs).
  apply list_elem_of_In. vm_compute. tauto.
Defined.

Lemma extension_unique e e' s :
  Posix.endswith (py "." ++ extension_value e) s = true ->
  Posix.endswith (py "." ++ extension_value e') s = true ->
  e = e'.
Proof.
  unfold Posix.endswith. destruct (rev s) as [|c l]; [by destruct e|].
  destruct e, e'; try done;
    match goal with
    | |- PyStr.startswith ?a _ = _ -> PyStr.startswith ?b _ = _ -> _ =>
        let a' := eval vm_compute in a in
        let b' := eval vm_compute in b in
        change a with a'; change b with b'
    end;
    cbn [PyStr.startswith]; rewrite !andb_true_iff, !N.eqb_eq;
    intros [? _] [? _]; congruence.
Qed.

(** A run for one extension leaves the paths of the other extensions
    alone: a path whose name ends with another of the four extensions is
    never passed to the client, never the source of a rename and never the
    target of one. *)
Theorem other_extensions_are_left_alone u client cwd args fs e' p :
  let trace := w_trace (main u client cwd args (boot fs)).1 in
  e' <> args_extension args ->
  Posix.endswith (py "." ++ extension_value e') (PathLib.name p) = true ->
  (Recognize p ∉ trace)
  /\ forall q, (Rename p q ∉ trace) /\ (Rename q p ∉ trace).
Proof.
  cbv zeta. intros Hne Hend.
  destruct (main_keeps u client cwd args fs) as (evs & -> & Hev & _).
  rewrite Forall_forall in Hev.
  assert (p ∉ Posix.rglob fs (PathLib.resolve cwd (args_directory args))
                (py "." ++ extension_value (args_extension args))) as Hp.
  { intros (_ & Hend' & _)%rglob_spec.
    by destruct Hne; eapply extension_unique. }
  split; [|intros q; split].
  - intros [Hin|Hin]%elem_of_app; [|apply (Hev _ Hin)].
    by apply list_elem_of_fmap in Hin as (f & [= <-] & Hf).
  - intros [Hin|Hin]%elem_of_app.
    + by apply list_elem_of_fmap in Hin as (f & [=] & _).
    + by destruct (Hev _ Hin) as (Hsrc & _).
  - intros [Hin|Hin]%elem_of_app.
    + by apply list_elem_of_fmap in Hin as (f & [=] & _).
    + destruct (Hev _ Hin) as (_ & _ & Hend').
      by destruct Hne; eapply extension_unique.
Qed.

Lemma other_extensions_are_left_alone_witness :
  Recognize [py "music"; py "c.flac"]
    ∉ w_trace (main Demo.ascii_only Demo.client [] Demo.args
                 (boot Demo.flac_fs)).1.
Proof.
  apply (other_extensions_are_left_alone Demo.ascii_only Demo.client []
           Demo.args Demo.flac_fs FLAC [py "music"; py "c.flac"]);
    [discriminate|reflexivity].
Defined.



Lemma for_each_unrecognised u client fs directory extension l w :
  (forall f, f ∈ l ->
     exists res, recognize client fs f = inr res /\ res_track res = None) ->
  for_each l (turn_for u client fs directory extension) w
  = ({| w_fs := w_fs w; w_next_id := w_next_id w;
        w_trace := w_trace w ++ map (fun f => Stdout (no_song_line f)) l |},
     inr tt).
Proof.
  revert w. induction l as [|f l IH]; intros w Hall.
  - cbn. rewrite app_nil_r. by destruct w.
  - destruct (Hall f) as (res & Hres & Hnone); [by left|].
    cbn [for_each]. unfold bind at 1, turn_for, bind, outcome_of.
    rewrite Hres. unfold rename_if_possible. rewrite Hnone.
    unfold print_colored, emit.
    rewrite IH by (intros g Hg; apply Hall; by right).
    unfold log. cbn. by rewrite <- app_assoc.
Qed.

(** When the client knows none of the files of the scan, the run calls the
    client for each file, prints for each file, in the order of the scan,
    the line that no song information was found, and returns: the file
    system is as it was. *)
Theorem unrecognised_files_stay u client cwd args fs :
  let directory := PathLib.resolve cwd (args_directory args) in
  let files := Posix.rglob fs directory
                 (py "." ++ extension_value (args_extension args)) in
  let run := main u client cwd args (boot fs) in
  files <> [] ->
  (forall f, f ∈ files ->
     exists res, recognize client fs f = inr res /\ res_track res = None) ->
  w_trace run.1
  = map Recognize files ++ map (fun f => Stdout (no_song_line f)) files
  /\ w_fs run.1 = fs
  /\ run.2 = inr tt.
Proof.
  cbv zeta. intros Hnil Hall. rewrite main_unfold.
  destruct (Posix.path_exists _ _) eqn:Hd;
    [|by rewrite not_exists_no_files in Hnil].
  rewrite process_music_files_files. cbv zeta. cbn [boot w_fs w_next_id].
  destruct (PyStr.is_empty _) eqn:E; [by apply is_empty_nil in E|].
  rewrite task_errors_tasks_of.
  replace (omap _ _) with (@nil exn).
  - by rewrite (for_each_unrecognised _ _ _ _ _ _ _ Hall).
  - symmetry. apply elem_of_nil_inv. intros e (f & Hf & He)%list_elem_of_omap.
    destruct (Hall f Hf) as (res & Hres & _). by rewrite Hres in He.
Qed.

Lemma unrecognised_files_stay_witness :
  w_fs (main Demo.ascii_only Demo.deaf_client [] Demo.args
          (boot Demo.collision_fs)).1
  = Demo.collision_fs.
Proof.
  apply (unrecognised_files_stay Demo.ascii_only Demo.deaf_client []
           Demo.args Demo.collision_fs).
  - intros E. vm_compute in E. discriminate E.
  - intros f _. by eexists.
Defined.

(** ** The rename of one turn *)

(** The turn for a recognised file that exists: the line, the call of
    [rename], and what [rename] makes of the file system. *)
Lemma turn_renames u directory extension f res track w :
  res_track res = Some track ->
  Posix.path_exists (w_fs w) f = true ->
  rename_if_possible u directory extension f res w
  = match Posix.rename (w_fs w) f (directory ++ [name_of u track extension]) with
    | inl e =>
        (log (Rename f (directory ++ [name_of u track extension]))
           (log (Stdout (renaming_line f (name_of u track extension))) w),
         inl e)
    | inr fs' =>
        ({| w_fs := fs'; w_next_id := w_next_id w;
            w_trace := (w_trace w
                        ++ [Stdout (renaming_line f (name_of u track extension))])
                       ++ [Rename f (directory ++ [name_of u track extension])] |},
         inr tt)
    end.
Proof.
  intros Htrack Hex. unfold rename_if_possible. rewrite Htrack.
  rewrite truediv_new_filename. fold (name_of u track extension).
  unfold print_colored, bind at 1, emit. unfold bind at 1, read_fs.
  cbn [log w_fs]. rewrite Hex.
  unfold path_rename, bind, emit. cbn [log w_fs w_trace w_next_id].
  by destruct (Posix.rename _ _ _).
Qed.

Lemma stat_exists fs p n : Posix.stat fs p = Some n -> Posix.path_exists fs p = true.
Proof. unfold Posix.path_exists. by intros ->. Qed.






(** A file that already has the name its track gives, in the directory
    itself, stays: the turn prints the line, calls [rename] with the same
    path twice, and returns with the file system as it was.  A second run
    over renamed files changes nothing. *)
Theorem named_file_stays u directory extension res track w :
  let f := directory ++ [name_of u track extension] in
  res_track res = Some track ->
  Posix.path_exists (w_fs w) f = true ->
  Posix.is_dir (w_fs w) directory = true ->
  rename_if_possible u directory extension f res w
  = ({| w_fs := w_fs w; w_next_id := w_next_id w;
        w_trace := (w_trace w
                    ++ [Stdout (renaming_line f (name_of u track extension))])
                   ++ [Rename f f] |},
     inr tt).
Proof.
  cbv zeta. intros Htrack Hex Hdir.
  rewrite (turn_renames _ _ _ _ _ _ _ Htrack Hex).
  unfold Posix.rename. rewrite parent_entry.
  unfold Posix.path_exists in Hex.
  destruct (Posix.stat (w_fs w) _) as [n|]; [|done].
  rewrite (is_dir_exists _ _ Hdir), Hdir. cbn [negb].
  by rewrite bool_decide_eq_true_2.
Qed.

Lemma named_file_stays_witness :
  w_fs (rename_if_possible Demo.ascii_only Demo.music (py "mp3") Demo.x_y_mp3
          {| res_track := Some Demo.track_xy |} (boot Demo.named_fs)).1
  = Demo.named_fs.
Proof.
  change Demo.x_y_mp3
    with (Demo.music ++ [name_of Demo.ascii_only Demo.track_xy (py "mp3")]).
  rewrite (named_file_stays Demo.ascii_only Demo.music (py "mp3")
             {| res_track := Some Demo.track_xy |} Demo.track_xy
             (boot Demo.named_fs)); reflexivity.
Defined.

(** A directory in the way is an error that ends the loop: when the new
    name of a regular file is the name of a directory, [rename] raises
    [IsADirectoryError], nothing catches it, the file system is as it was,
    and the results after this one get no turn: the call of [rename] is the
    last event of the loop. *)
Theorem directory_in_the_way_stops_the_loop
    u client directory extension (files : list Path) w w1 results
    i f res track wk data :
  let target := directory ++ [name_of u track extension] in
  let run := for_each (drop i results)
               (rename_one u directory extension files results) wk in
  comprehension (create_task client) files w = (w1, inr results) ->
  files !! i = Some f ->
  recognize client (w_fs w) f = inr res ->
  res_track res = Some track ->
  Posix.stat (w_fs wk) f = Some (File data) ->
  Posix.is_dir (w_fs wk) directory = true ->
  Posix.stat (w_fs wk) target = Some Dir ->
  run.2 = inl IsADirectoryError
  /\ w_fs run.1 = w_fs wk
  /\ w_trace run.1
     = w_trace wk
       ++ [Stdout (renaming_line f (name_of u track extension));
           Rename f target].
Proof.
  cbv zeta. intros ->%created_tasks Hf Hres Htrack Hsrc Hdir Hdst.
  rewrite loop_over_files, (drop_S _ _ _ Hf). cbn [for_each].
  assert (turn_for u client (w_fs w) directory extension f wk
          = (log (Rename f (directory ++ [name_of u track extension]))
               (log (Stdout (renaming_line f (name_of u track extension))) wk),
             inl IsADirectoryError)) as Hturn.
  { unfold turn_for, bind, outcome_of. rewrite Hres.
    rewrite (turn_renames _ _ _ _ _ _ _ Htrack (stat_exists _ _ _ Hsrc)).
    unfold Posix.rename. rewrite Hsrc, parent_entry.
    rewrite (is_dir_exists _ _ Hdir), Hdir, Hdst. cbn [negb].
    by rewrite bool_decide_eq_false_2 by (intros ->; congruence). }
  unfold bind. rewrite Hturn. unfold log. cbn [fst snd w_fs w_trace].
  by rewrite <- app_assoc.
Qed.

Lemma directory_in_the_way_stops_the_loop_witness :
  (for_each (drop 0 (tasks_of Demo.client Demo.blocked_fs 0 [Demo.a_mp3]))
     (rename_one Demo.ascii_only Demo.music (py "mp3") [Demo.a_mp3]
        (tasks_of Demo.client Demo.blocked_fs 0 [Demo.a_mp3]))
     (boot Demo.blocked_fs)).2
  = inl IsADirectoryError.
Proof.
  apply (directory_in_the_way_stops_the_loop Demo.ascii_only Demo.client
           Demo.music (py "mp3") [Demo.a_mp3] (boot Demo.blocked_fs)
           (spawned [Demo.a_mp3] (boot Demo.blocked_fs))
           (tasks_of Demo.client Demo.blocked_fs 0 [Demo.a_mp3])
           0 Demo.a_mp3 {| res_track := Some Demo.track_xy |} Demo.track_xy
           (boot Demo.blocked_fs) 1); reflexivity.
Defined.

(** ** Outside the target directory *)

Lemma is_prefix_spec d p :
  PathLib.is_prefix d p = true <-> exists rel, p = d ++ rel.
Proof.
  revert p. induction d as [|a d IH]; intros p; cbn.
  - split; [by exists p|done].
  - destruct p as [|b p]; [split; [done|by intros [? [=]]]|].
    rewrite andb_true_iff, bool_decide_eq_true, IH. split.
    + intros [-> [rel ->]]. by exists rel.
    + intros [rel [= -> ->]]. split; [done|by exists rel].
Qed.

Lemma is_prefix_app d rel : PathLib.is_prefix d (d ++ rel) = true.
Proof. apply is_prefix_spec. by exists rel. Qed.

Lemma is_prefix_trans a b c :
  PathLib.is_prefix a b = true -> PathLib.is_prefix b c = true ->
  PathLib.is_prefix a c = true.
Proof.
  rewrite !is_prefix_spec. intros [r1 ->] [r2 ->].
  exists (r1 ++ r2). by rewrite app_assoc.
Qed.

(** Moving a tree changes nothing outside the source and the target. *)
Lemma rebase_outside (directory src dst k p : Path) :
  PathLib.is_prefix directory src = true ->
  PathLib.is_prefix directory dst = true ->
  PathLib.is_prefix directory p = false ->
  Posix.rebase src dst k = p <-> k = p.
Proof.
  intros Hsrc Hdst Hp. unfold Posix.rebase.
  assert (forall q rel, q = p -> PathLib.relative_to src q = Some rel -> False)
    as Hnot.
  { intros q rel -> E%relative_to_Some.
    rewrite (is_prefix_trans directory src p) in Hp; [done|done|].
    rewrite E. apply is_prefix_app. }
  split.
  - destruct (PathLib.relative_to src k) as [rel|] eqn:E; [|done].
    intros <-.
    rewrite (is_prefix_trans directory dst (dst ++ rel)) in Hp;
      [done|done|apply is_prefix_app].
  - intros ->.
    destruct (PathLib.relative_to src p) as [rel|] eqn:E; [|done].
    by destruct (Hnot p rel).
Qed.

Lemma move_tree_outside (directory src dst : Path) (fs : FS) (p : Path) :
  PathLib.is_prefix directory src = true ->
  PathLib.is_prefix directory dst = true ->
  PathLib.is_prefix directory p = false ->
  Posix.move_tree src dst fs !! p = fs !! p.
Proof.
  intros Hsrc Hdst Hp. unfold Posix.move_tree.
  assert (p <> dst) as Hne by (intros ->; congruence).
  rewrite <- (lookup_delete_ne fs dst p) by done.
  destruct (delete dst fs !! p) as [v|] eqn:E.
  - apply elem_of_list_to_map_1'.
    + intros y ([k v'] & [= Hk ->] & Hin)%list_elem_of_fmap.
      cbn in *. symmetry in Hk.
      apply (rebase_outside directory) in Hk; [|done..]. subst k.
      apply elem_of_map_to_list in Hin. congruence.
    + apply list_elem_of_fmap. exists (p, v). split.
      * cbn. f_equal. symmetry. by apply (rebase_outside directory).
      * by apply elem_of_map_to_list.
  - apply not_elem_of_list_to_map_1.
    intros ([k v] & Hk & ([k' v'] & [= -> ->] & Hin)%list_elem_of_fmap)%list_elem_of_fmap.
    cbn in *. symmetry in Hk.
    apply (rebase_outside directory) in Hk; [|done..]. subst k'.
    apply elem_of_map_to_list in Hin. congruence.
Qed.

(** A rename inside a directory changes nothing outside of it. *)
Lemma rename_outside (directory : Path) (fs : FS) (src dst : Path) (fs' : FS)
    (p : Path) :
  PathLib.is_prefix directory src = true ->
  PathLib.is_prefix directory dst = true ->
  Posix.rename fs src dst = inr fs' ->
  PathLib.is_prefix directory p = false ->
  fs' !! p = fs !! p.
Proof.
  intros Hsrc Hdst Hren Hp.
  assert (p <> src) as Hne1 by (intros ->; congruence).
  assert (p <> dst) as Hne2 by (intros ->; congruence).
  unfold Posix.rename in Hren.
  repeat case_match; simplify_eq; try done;
    try (rewrite lookup_insert_ne by done; by rewrite lookup_delete_ne);
    by apply (move_tree_outside directory).
Qed.

Lemma turn_for_outside u client fs directory extension f w p :
  PathLib.is_prefix directory f = true ->
  PathLib.is_prefix directory p = false ->
  w_fs (turn_for u client fs directory extension f w).1 !! p = w_fs w !! p.
Proof.
  intros Hf Hp. unfold turn_for, bind.
  destruct (outcome_of client fs f) as [e|res]; [done|].
  destruct (res_track res) as [track|] eqn:Htrack;
    [|by unfold rename_if_possible; rewrite Htrack].
  destruct (Posix.path_exists (w_fs w) f) eqn:Hex.
  - rewrite (turn_renames _ _ _ _ _ _ _ Htrack Hex).
    destruct (Posix.rename _ _ _) as [e|fs'] eqn:Hren; [done|]. cbn [fst w_fs].
    eapply rename_outside; [exact Hf|apply is_prefix_app|exact Hren|exact Hp].
  - unfold rename_if_possible. rewrite Htrack.
    unfold print_colored, bind, emit, read_fs. cbn [log w_fs]. by rewrite Hex.
Qed.

(** A run changes nothing outside the target directory: every path that
    is neither the target directory nor below it is, after the run, what it
    was before. *)
Theorem outside_the_directory_untouched u client cwd args fs p :
  PathLib.is_prefix (PathLib.resolve cwd (args_directory args)) p = false ->
  w_fs (main u client cwd args (boot fs)).1 !! p = fs !! p.
Proof.
  intros Hp. rewrite main_unfold.
  destruct (Posix.path_exists _ _); [|done].
  rewrite process_music_files_files. cbv zeta. cbn [boot w_fs w_next_id].
  set (directory := PathLib.resolve cwd (args_directory args)) in *.
  set (files := Posix.rglob fs directory _).
  destruct (PyStr.is_empty files); [done|].
  destruct (task_errors _); [|done].
  destruct (for_each_keeps
              (fun w w' => w_fs w' !! p = w_fs w !! p) (fun _ => True) files
              (turn_for u client fs directory
                 (extension_value (args_extension args)))) with
    (w := spawned files (boot fs)) as [H _]; [done|congruence| |exact H].
  intros f w (_ & _ & rel & -> & _)%rglob_spec. split; [|done].
  apply turn_for_outside; [apply is_prefix_app|done].
Qed.

Lemma outside_the_directory_untouched_witness :
  w_fs (main Demo.ascii_only Demo.client [] Demo.args
          (boot (<[[py "video"] := File 7]> Demo.collision_fs))).1
  !! [py "video"]
  = Some (File 7).
Proof.
  rewrite (outside_the_directory_untouched Demo.ascii_only Demo.client []
             Demo.args (<[[py "video"] := File 7]> Demo.collision_fs)
             [py "video"]); reflexivity.
Defined.
